(** * Research-paper digester: text extractor, LLM client, pipeline orchestrator

    A shallow embedding of [pdf_processor.py], [chatbot.py] and
    [main_digester.py].  Python strings are sequences of Unicode code points
    and are modelled as lists of code points; logging, printing, sleeping and
    the calls to the chat-completion API are recorded as a trace of events;
    Python exceptions are an explicit [Raised] result. *)

From Stdlib Require Import List ZArith NArith QArith Bool Lia Ascii String DecimalString.
From Equations Require Import Equations.
From Equations.Prop Require Import Logic.
Import ListNotations.

Close Scope Q_scope.

(* ===================================================================== *)
(** * Python strings *)
(* ===================================================================== *)

Module Py.

(** A character is a Unicode code point, a [str] a sequence of them. *)
Definition char := N.
Definition str := list char.

(** A source literal (all literals of the repository are ASCII). *)
Definition u (s : string) : str := List.map N_of_ascii (list_ascii_of_string s).

Definition space : char := 32%N.
Definition tab : char := 9%N.
Definition newline : char := 10%N.

Definition in_range (lo hi c : N) : bool := ((lo <=? c) && (c <=? hi))%N.

(** [str.isspace] on one character, the test behind [str.split()] and
    [str.strip()] called without an argument: the code points that Unicode
    classifies as whitespace. *)
Definition isspace (c : char) : bool :=
  in_range 9 13 c || in_range 28 31 c || (c =? 32)%N || (c =? 133)%N ||
  (c =? 160)%N || (c =? 5760)%N || in_range 8192 8202 c || (c =? 8232)%N ||
  (c =? 8233)%N || (c =? 8239)%N || (c =? 8287)%N || (c =? 12288)%N.

(** [s.split()]: the maximal runs of non-whitespace characters of [s], in
    order; [cur] is the run being read. *)
Fixpoint split_from (cur : str) (s : str) : list str :=
  match s with
  | [] => match cur with [] => [] | _ :: _ => [cur] end
  | c :: s' =>
      if isspace c then
        match cur with
        | [] => split_from [] s'
        | _ :: _ => cur :: split_from [] s'
        end
      else split_from (cur ++ [c]) s'
  end.

Definition split (s : str) : list str := split_from [] s.

(** [sep.join(words)]. *)
Fixpoint join (sep : str) (words : list str) : str :=
  match words with
  | [] => []
  | w :: ws => match ws with [] => w | _ :: _ => w ++ sep ++ join sep ws end
  end.

Fixpoint lstrip (s : str) : str :=
  match s with
  | [] => []
  | c :: s' => if isspace c then lstrip s' else s
  end.

Definition rstrip (s : str) : str := rev (lstrip (rev s)).

(** [s.strip()]. *)
Definition strip (s : str) : str := rstrip (lstrip s).

Fixpoint startswith (s prefix : str) : bool :=
  match prefix, s with
  | [], _ => true
  | _ :: _, [] => false
  | p :: prefix', c :: s' => (c =? p)%N && startswith s' prefix'
  end.

(** [needle in s]. *)
Fixpoint contains (s needle : str) : bool :=
  startswith s needle ||
  match s with
  | [] => false
  | _ :: s' => contains s' needle
  end.

(** The left-to-right scan of [s.replace(old, new)] for a non-empty [old]:
    [skip] counts the characters of a match that are still to be dropped. *)
Fixpoint replace_scan (old new : str) (skip : nat) (s : str) : str :=
  match s with
  | [] => []
  | c :: s' =>
      match skip with
      | S k => replace_scan old new k s'
      | O =>
          if startswith s old
          then new ++ replace_scan old new (Nat.pred (List.length old)) s'
          else c :: replace_scan old new 0 s'
      end
  end.

(** [s.replace(old, new)]: every non-overlapping occurrence of [old], found
    from the left, becomes [new]; an empty [old] matches before every
    character and at the end. *)
Definition replace (s old new : str) : str :=
  match old with
  | [] => new ++ flat_map (fun c => c :: new) s
  | _ :: _ => replace_scan old new 0 s
  end.

(** [s[:n]]: the first [n] characters, all but the last [-n] for a negative
    [n]. *)
Definition slice_to (n : Z) (s : str) : str :=
  if (n <? 0)%Z then firstn (List.length s - Z.to_nat (- n)) s
  else firstn (Z.to_nat n) s.

(** [len(s)]. *)
Definition len (s : str) : Z := Z.of_nat (List.length s).

(** Truth value of a [str | None]: [None] and the empty string are falsy. *)
Definition truthy (o : option str) : bool :=
  match o with
  | Some (_ :: _) => true
  | _ => false
  end.

(** The string held by a [str | None] already tested truthy. *)
Definition the (o : option str) : str :=
  match o with
  | Some s => s
  | None => []
  end.

End Py.
Import Py.

(* ===================================================================== *)
(** * Exceptions, the outside world and observable effects *)
(* ===================================================================== *)

(** The exception classes the handlers of the program tell apart, each with
    its message.  [APIError] stands for the instances of [openai.APIError]
    that no earlier handler takes (those that are not a [RateLimitError]),
    [OtherException] for any other instance of [Exception]. *)
Inductive exn : Type :=
| RateLimitError (msg : str)
| APIError (msg : str)
| ValueError (msg : str)
| OtherException (msg : str).

Inductive result (A : Type) : Type :=
| Ok (a : A)
| Raised (e : exn).
Arguments Ok {A} a.
Arguments Raised {A} e.

(** What the PDF library answers: [fitz.open] raises or yields a document;
    loading a page and reading its text raises or yields the page's text;
    [doc.close()] may raise. *)
Inductive page : Type :=
| PageText (t : str)
| PageRaises (e : exn).

Record document : Type := {
  pages : list page;
  close_raises : option exn
}.

Inductive open_result : Type :=
| OpenRaises (e : exn)
| Opened (doc : document).

(** What the chat-completion API receives and answers. *)
Record request : Type := {
  req_model : str;
  req_system : str;
  req_user : str;
  req_temperature : Q
}.

Record ChatCompletionMessage : Type := { content : option str }.
Record Choice : Type := { message : option ChatCompletionMessage }.
Record ChatCompletion : Type := { choices : list Choice }.

Inductive api_outcome : Type :=
| Returns (response : ChatCompletion)
| Raises (e : exn).

(** The world a run happens in: the PDF library's answer for every path, the
    environment variable, and the API's answer to its n-th call (counted from
    0 over the whole run) for every request. *)
Record environment : Type := {
  fitz_open : str -> open_result;
  OPENAI_API_KEY : option str;
  chat_completions_create : nat -> request -> api_outcome
}.

(** Log records: the message template and the values formatted into it. *)
Inductive log_msg : Type :=
(* pdf_processor.py *)
| OpeningPDF (pdf_path : str)
| ExtractingPages (n : Z)
| ExtractedChars (n : Z)
| ErrorProcessingPDF (pdf_path : str) (e : exn)
(* chatbot.py *)
| ChatbotInitialized (model : str)
| CallingLLM (attempt max_retries : Z)
| LLMCallSuccessful
| LLMEmptyMessage
| LLMUnexpectedStructure
| RateLimitRetrying (delay attempt max_retries : Z)
| APIErrorRetrying (e : exn) (delay attempt max_retries : Z)
| LLMUnexpectedError (e : exn)
| LLMFailedAfterRetries
| ExecutingTask (role_snippet : str)
(* main_digester.py *)
| StartingDigestion (pdf_path : str)
| Step1ExtractingText
| FailedToExtractText
| TextExtracted (n : Z)
| ExtractedTextLong (n : Z)
| ExtractedTextVeryShort (n : Z)
| FailedToInitialize (e : exn)
| UnexpectedInitError (e : exn)
| Step2ExtractorBot
| ExtractorBotFailed
| Step3SynthesizerBot
| SynthesizerBotFailed
| PipelineCompleted.

Inductive level : Type := INFO | WARNING | ERROR.

Inductive event : Type :=
| Log (lvl : level) (m : log_msg)
| Sleep (seconds : Z)
| ApiCall (r : request)
| Printed (s : str).

(* ===================================================================== *)
(** * The effect monad *)
(* ===================================================================== *)

(** A computation starts with the number of API calls made so far and yields
    a value or an exception, the events it emitted, and the new number of
    API calls. *)
Definition M (A : Type) : Type := nat -> result A * list event * nat.

Definition ret {A} (a : A) : M A := fun n => (Ok a, [], n).

Definition raise {A} (e : exn) : M A := fun n => (Raised e, [], n).

Definition bind {A B} (m : M A) (f : A -> M B) : M B :=
  fun n =>
    match m n with
    | (Ok a, ev, n1) => let '(r, ev', n2) := f a n1 in (r, ev ++ ev', n2)
    | (Raised e, ev, n1) => (Raised e, ev, n1)
    end.

(** [try: m  except Exception as e: handler e]. *)
Definition catch {A} (m : M A) (handler : exn -> M A) : M A :=
  fun n =>
    match m n with
    | (Ok a, ev, n1) => (Ok a, ev, n1)
    | (Raised e, ev, n1) => let '(r, ev', n2) := handler e n1 in (r, ev ++ ev', n2)
    end.

Definition emit (e : event) : M unit := fun n => (Ok tt, [e], n).

Declare Scope py_scope.
Delimit Scope py_scope with py.
Notation "x <- m ;; k" := (bind m (fun x => k))
  (at level 61, m at next level, right associativity) : py_scope.
Notation "m ;; k" := (bind m (fun _ => k))
  (at level 61, right associativity) : py_scope.
Open Scope py_scope.

Definition value_of {A} (x : result A * list event * nat) : result A := fst (fst x).
Definition events_of {A} (x : result A * list event * nat) : list event := snd (fst x).
Definition calls_of {A} (x : result A * list event * nat) : nat := snd x.

Definition logging_info (m : log_msg) : M unit := emit (Log INFO m).
Definition logging_warning (m : log_msg) : M unit := emit (Log WARNING m).
Definition logging_error (m : log_msg) : M unit := emit (Log ERROR m).

(** [print(s)] on an output stream that accepts the text; the
    [UnicodeEncodeError] of a stream that cannot encode it is not modelled. *)
Definition print (s : str) : M unit := emit (Printed s).

(** [time.sleep(secs)]: raises [ValueError] for a negative length. *)
Definition time_sleep (secs : Z) : M unit :=
  if (secs <? 0)%Z
  then raise (ValueError (u "sleep length must be non-negative"))
  else emit (Sleep secs).

Definition is_api_call (e : event) : bool :=
  match e with ApiCall _ => true | _ => false end.

Definition is_sleep (e : event) : bool :=
  match e with Sleep _ => true | _ => false end.

Definition is_print (e : event) : bool :=
  match e with Printed _ => true | _ => false end.

(** The number of attempts a trace shows. *)
Definition attempts (ev : list event) : nat := List.length (filter is_api_call ev).

(** The network and timing part of a trace. *)
Definition calls_and_sleeps (ev : list event) : list event :=
  filter (fun e => is_api_call e || is_sleep e) ev.

(** How one pass through the body of the retry loop ends: the function
    returns, or the loop goes on to its next test. *)
Inductive flow : Type :=
| Return (v : option str)
| Retry.

Record Chatbot : Type := {
  model : str;
  temperature : Q
}.

Section Program.

Variable E : environment.

(* --------------------------------------------------------------------- *)
(** ** pdf_processor.py *)
(* --------------------------------------------------------------------- *)

Definition fitz_open_ (pdf_path : str) : M document :=
  match fitz_open E pdf_path with
  | OpenRaises e => raise e
  | Opened doc => ret doc
  end.

(** The loop over the pages: [text += doc.load_page(page_num).get_text()]. *)
Fixpoint read_pages (ps : list page) (text : str) : M str :=
  match ps with
  | [] => ret text
  | PageText t :: ps' => read_pages ps' (text ++ t)
  | PageRaises e :: _ => raise e
  end.

Definition doc_close (doc : document) : M unit :=
  match close_raises doc with
  | Some e => raise e
  | None => ret tt
  end.

Definition extract_text_from_pdf (pdf_path : str) : M (option str) :=
  catch
    (logging_info (OpeningPDF pdf_path);;
     doc <- fitz_open_ pdf_path;;
     let text := [] in
     logging_info (ExtractingPages (Z.of_nat (List.length (pages doc))));;
     text <- read_pages (pages doc) text;;
     doc_close doc;;
     logging_info (ExtractedChars (len text));;
     let text := join [space] (split text) in
     ret (Some text))
    (fun e =>
       logging_error (ErrorProcessingPDF pdf_path e);;
       ret None).

(* --------------------------------------------------------------------- *)
(** ** chatbot.py *)
(* --------------------------------------------------------------------- *)

(** [Chatbot.__init__]. *)
Definition Chatbot_init (model : str) (temperature : Q) : M Chatbot :=
  let api_key := OPENAI_API_KEY E in
  if negb (truthy api_key) then
    raise (ValueError (u "OPENAI_API_KEY environment variable not set."))
  else
    logging_info (ChatbotInitialized model);;
    ret {| model := model; temperature := temperature |}.

(** [self.client.chat.completions.create(...)]: one call to the API. *)
Definition create (r : request) : M ChatCompletion :=
  fun n =>
    (match chat_completions_create E n r with
     | Returns response => Ok response
     | Raises e => Raised e
     end, [ApiCall r], S n).

Section CallLLM.

Variable self : Chatbot.
Variables system_prompt user_prompt : str.
Variables max_retries delay : Z.

(** The [try] statement inside the loop of [_call_llm]. *)
Definition attempt_once (attempt : Z) : M flow :=
  let unexpected :=
    logging_warning LLMUnexpectedStructure;;
    ret (Return None) in
  catch
    (logging_info (CallingLLM (attempt + 1) max_retries);;
     response <- create {| req_model := model self;
                           req_system := system_prompt;
                           req_user := user_prompt;
                           req_temperature := temperature self |};;
     match choices response with
     | choice0 :: _ =>
         match message choice0 with
         | Some msg =>
             let content := content msg in
             if truthy content then
               logging_info LLMCallSuccessful;;
               ret (Return (Some (strip (the content))))
             else
               logging_warning LLMEmptyMessage;;
               ret (Return None)
         | None => unexpected
         end
     | [] => unexpected
     end)
    (fun e =>
       match e with
       | RateLimitError _ =>
           logging_warning (RateLimitRetrying delay (attempt + 1) max_retries);;
           time_sleep delay;;
           ret Retry
       | APIError _ =>
           logging_warning (APIErrorRetrying e delay (attempt + 1) max_retries);;
           time_sleep delay;;
           ret Retry
       | _ =>
           logging_error (LLMUnexpectedError e);;
           ret (Return None)
       end).

(** [while attempt < max_retries: ...] followed by the failure exit; the
    handlers' [attempt += 1] is the argument of the recursive call. *)
Equations? while_attempt (attempt : Z) : M (option str)
    by wf (Z.to_nat (max_retries - attempt)) lt :=
  while_attempt attempt with inspect (attempt <? max_retries)%Z := {
    | exist _ true Hlt =>
        f <- attempt_once attempt;;
        match f with
        | Return v => ret v
        | Retry => while_attempt (attempt + 1)
        end
    | exist _ false _ =>
        logging_error LLMFailedAfterRetries;;
        ret None
    }.
Proof.
  apply Z.ltb_lt in Hlt. lia.
Qed.

Definition _call_llm : M (option str) :=
  let attempt := 0%Z in
  while_attempt attempt.

End CallLLM.

Definition execute_task (self : Chatbot) (role_prompt task_prompt : str)
    : M (option str) :=
  logging_info (ExecutingTask (slice_to 100 role_prompt));;
  _call_llm self role_prompt task_prompt 3 5.

End Program.

(* --------------------------------------------------------------------- *)
(** ** main_digester.py *)
(* --------------------------------------------------------------------- *)

Definition PDF_PATH : str := u "Recommender_Systems.pdf".
Definition LLM_MODEL : str := u "gpt-3.5-turbo".
Definition MAX_TEXT_LENGTH_WARN : Z := 50000.

Definition extractor_role : str := u "You are an AI assistant specialized in extracting key structured information from academic research papers. Focus on accuracy and conciseness.".

Definition synthesizer_role : str := u "You are an AI assistant skilled at critically evaluating and synthesizing research paper summaries. Your goal is to produce a final, balanced digest (around 150-250 words) that incorporates the key findings and offers a brief critical perspective.".

(** The literal parts of the two f-strings, around their replacement
    fields. *)
Definition extraction_prompt_head : str := u "
    Carefully read the following research paper text. Extract the following sections clearly and concisely:
    1.  **Core Problem:** What specific problem or question does the paper address?
    2.  **Proposed Method/Solution:** Briefly describe the key technique, model, or approach proposed.
    3.  **Key Results:** What were the main quantitative or qualitative findings? Mention key metrics if possible.
    4.  **Main Conclusion:** What is the primary takeaway or claim of the paper?
    5.  **Mentioned Limitations:** List any limitations, weaknesses, or future work mentioned by the authors.

    Research Paper Text:
    ---
    ".

Definition extraction_prompt_tail : str := u "
    ---
    [Note: Only the first 8000 characters of the paper text are provided above due to potential length constraints. Base your extraction on this initial part if the full text is too long for a single prompt in a real scenario, or adjust slicing as needed.]

    Provide the output clearly structured under the headings above.
    ".

Definition synthesis_prompt_head : str := u "
    You have been provided with an initial extraction from a research paper. Review this extraction in the context of the full paper text (provided again below for reference).

    Your Tasks:
    1.  **Synthesize:** Combine the extracted points into a coherent narrative digest summarizing the paper's core contribution.
    2.  **Critique:** Briefly assess the significance of the findings. Are the limitations acknowledged appropriately? Does the method seem sound based on the description? (Be objective).
    3.  **Format:** Produce a single block of text representing the final digest.

    Initial Extraction:
    ---
    ".

Definition synthesis_prompt_middle : str := u "
    ---

    Full Paper Text (for context - may be truncated):
    ---
    ".

Definition synthesis_prompt_tail : str := u "
    ---
    [Note: Full paper text context provided again, potentially truncated.]

    Generate the final synthesized and critiqued digest.
    ".

(** The f-strings, evaluated: [{paper_text[:8000]}] and
    [{initial_extraction}] are replacement fields. *)
Definition extraction_prompt (paper_text : str) : str :=
  extraction_prompt_head ++ slice_to 8000 paper_text ++ extraction_prompt_tail.

Definition synthesis_prompt (initial_extraction paper_text : str) : str :=
  synthesis_prompt_head ++ initial_extraction ++ synthesis_prompt_middle ++
  slice_to 8000 paper_text ++ synthesis_prompt_tail.

(** The first argument of the two [.replace] calls. *)
Definition placeholder : str := u "{paper_text[:8000]}".

(** The task prompts handed to [execute_task]. *)
Definition extraction_task (paper_text : str) : str :=
  replace (extraction_prompt paper_text) placeholder paper_text.

Definition synthesis_task (initial_extraction paper_text : str) : str :=
  replace (synthesis_prompt initial_extraction paper_text) placeholder paper_text.

Definition extractor_output_header : str := u "
--- Extractor Bot Output ---".
Definition final_digest_failed : str := u "
--- Final Digest: FAILED ---".
Definition final_digest_header : str := u "
--- Final Synthesized Digest ---".

Section Pipeline.

Variable E : environment.

Definition run_digestion_pipeline (pdf_path : str) : M unit :=
  logging_info (StartingDigestion pdf_path);;
  (* 1. Extract Text from PDF *)
  logging_info Step1ExtractingText;;
  paper_text <- extract_text_from_pdf E pdf_path;;
  if negb (truthy paper_text) then
    logging_error FailedToExtractText;;
    ret tt
  else
    let paper_text := the paper_text in
    logging_info (TextExtracted (len paper_text));;
    (if (len paper_text >? MAX_TEXT_LENGTH_WARN)%Z then
       logging_warning (ExtractedTextLong (len paper_text))
     else if (len paper_text <? 500)%Z then
       logging_warning (ExtractedTextVeryShort (len paper_text))
     else ret tt);;
    (* 2. Initialize Chatbots *)
    bots <- catch
              (extractor_bot <- Chatbot_init E LLM_MODEL (3 # 10)%Q;;
               synthesizer_bot <- Chatbot_init E LLM_MODEL (6 # 10)%Q;;
               ret (Some (extractor_bot, synthesizer_bot)))
              (fun e =>
                 match e with
                 | ValueError _ =>
                     logging_error (FailedToInitialize e);;
                     ret None
                 | _ =>
                     logging_error (UnexpectedInitError e);;
                     ret None
                 end);;
    match bots with
    | None => ret tt
    | Some (extractor_bot, synthesizer_bot) =>
        (* 3. Extractor Bot Task *)
        logging_info Step2ExtractorBot;;
        initial_extraction <-
          execute_task E extractor_bot extractor_role (extraction_task paper_text);;
        if negb (truthy initial_extraction) then
          logging_error ExtractorBotFailed;;
          ret tt
        else
          let initial_extraction := the initial_extraction in
          print extractor_output_header;;
          print initial_extraction;;
          (* 4. Synthesizer/Critic Bot Task *)
          logging_info Step3SynthesizerBot;;
          final_digest <-
            execute_task E synthesizer_bot synthesizer_role
                         (synthesis_task initial_extraction paper_text);;
          if negb (truthy final_digest) then
            logging_error SynthesizerBotFailed;;
            print final_digest_failed;;
            ret tt
          else
            let final_digest := the final_digest in
            print final_digest_header;;
            print final_digest;;
            logging_info PipelineCompleted
    end.

End Pipeline.

(* --------------------------------------------------------------------- *)
(** ** The modules run as scripts *)
(* --------------------------------------------------------------------- *)

(** [a == b] on strings. *)
Fixpoint str_eqb (a b : str) : bool :=
  match a, b with
  | [], [] => true
  | c :: a', d :: b' => (c =? d)%N && str_eqb a' b'
  | _, _ => false
  end.

(** [str(n)] for an integer, as an f-string formats it. *)
Definition str_of_int (n : Z) : str := u (NilZero.string_of_int (Z.to_int n)).

(** [str(e)] for an exception: its message. *)
Definition exn_str (e : exn) : str :=
  match e with
  | RateLimitError msg | APIError msg | ValueError msg | OtherException msg => msg
  end.

Section Scripts.

Variable E : environment.

(** [os.path.exists]. *)
Variable os_path_exists : str -> bool.

(** The [__main__] block of [pdf_processor.py]. *)
Definition pdf_processor_main : M unit :=
  let pdf_file := u "Recommender_Systems.pdf" in
  if str_eqb pdf_file (u "example_paper.pdf") then
    print (u "Please replace 'example_paper.pdf' with the actual path to your PDF file.")
  else
    extracted_text <- extract_text_from_pdf E pdf_file;;
    if truthy extracted_text then
      let extracted_text := the extracted_text in
      print (u "Extracted text (first 500 chars):
" ++ slice_to 500 extracted_text ++ u "...");;
      print (u "
Total characters extracted: " ++ str_of_int (len extracted_text))
    else
      print (u "Failed to extract text from PDF.").

(** The [__main__] block of [main_digester.py]. *)
Definition main_digester_main : M unit :=
  if negb (os_path_exists PDF_PATH) && str_eqb PDF_PATH (u "example_paper.pdf") then
    print (u "Error: Default PDF '" ++ PDF_PATH ++ u "' not found.");;
    print (u "Please update the 'PDF_PATH' variable in 'main_digester.py' to your research paper PDF file.")
  else if negb (os_path_exists PDF_PATH) then
    print (u "Error: PDF file not found at '" ++ PDF_PATH ++ u "'.");;
    print (u "Please check the 'PDF_PATH' variable in 'main_digester.py'.")
  else
    run_digestion_pipeline E PDF_PATH.

End Scripts.

(** The [__main__] block of [chatbot.py]: one bot, both tasks on a sample
    text. *)
Module ChatbotDemo.

Definition extractor_role : str := u "You are an AI assistant specialized in extracting key information from research papers.".

Definition sample_text : str := u "
        Abstract: We propose a novel method for improving widget sorting efficiency.
        Introduction: Sorting widgets is a common problem. Existing methods suffer from O(n^2) complexity.
        Methods: Our technique, 'FastSort', uses a divide-and-conquer approach with a heuristic pivot selection.
        Results: FastSort achieves O(n log n) average-case performance, outperforming BubbleSort by 100x on datasets up to 1 million widgets.
        Conclusion: FastSort offers a significant improvement for large-scale widget sorting. Limitations include sensitivity to pivot choice in worst-case scenarios.
        ".

Definition extraction_task_head : str := u "
        From the following research paper text, extract:
        1. Core Problem:
        2. Proposed Method/Solution:
        3. Key Results:
        4. Main Conclusion:
        5. Mentioned Limitations (if any):

        Paper Text:
        ---
        ".

Definition extraction_task_tail : str := u "
        ---
        Provide the extracted information clearly labeled.
        ".

Definition synthesizer_role : str := u "You are an AI assistant skilled at synthesizing and critiquing research summaries. You aim to produce a concise, informative digest highlighting strengths and weaknesses.".

Definition synthesis_task_head : str := u "
        Below is an initial extraction from a research paper. Review it along with the original text (provided again for context).
        Your goal is to synthesize this into a final digest (~150 words).
        Critically evaluate: Are the results clearly impactful? Are limitations properly acknowledged? Is the core idea novel?
        Integrate your critique into the final digest.

        Original Text:
        ---
        ".

Definition synthesis_task_middle : str := u "
        ---

        Initial Extraction:
        ---
        ".

Definition synthesis_task_tail : str := u "
        ---

        Produce the final synthesized digest.
        ".

(** The two f-strings, evaluated. *)
Definition extraction_task : str :=
  extraction_task_head ++ sample_text ++ extraction_task_tail.

Definition synthesis_task (extraction_result : option str) : str :=
  synthesis_task_head ++ sample_text ++ synthesis_task_middle ++
  (if truthy extraction_result then the extraction_result
   else u "Extraction Failed") ++
  synthesis_task_tail.

(** [Chatbot(model=...)] leaves the temperature at its default, 0.5. *)
Definition main (E : environment) : M unit :=
  catch
    (bot <- Chatbot_init E (u "gpt-3.5-turbo") (5 # 10)%Q;;
     extraction_result <- execute_task E bot extractor_role extraction_task;;
     print (u "
--- Extraction Bot Test ---");;
     (if truthy extraction_result then print (the extraction_result)
      else print (u "Extraction task failed."));;
     synthesis_result <-
       execute_task E bot synthesizer_role (synthesis_task extraction_result);;
     print (u "
--- Synthesizer Bot Test ---");;
     if truthy synthesis_result then print (the synthesis_result)
     else print (u "Synthesis task failed."))
    (fun e =>
       match e with
       | ValueError _ => print (u "Error: " ++ exn_str e)
       | _ => print (u "An unexpected error occurred: " ++ exn_str e)
       end).

End ChatbotDemo.

(* ===================================================================== *)
(** * Vocabulary of the statements *)
(* ===================================================================== *)

(** A run of characters without whitespace, and a word as [split] yields
    them. *)
Definition nospace (w : str) : Prop := Forall (fun c => isspace c = false) w.
Definition word (w : str) : Prop := w <> [] /\ nospace w.

(** Text made of whitespace only (the empty text included). *)
Definition blank (t : str) : Prop := Forall (fun c => isspace c = true) t.

(** Neither the first nor the last character is whitespace. *)
Definition trimmed (s : str) : Prop :=
  (forall c r, s = c :: r -> isspace c = false) /\
  (forall c r, s = r ++ [c] -> isspace c = false).

(** Two neighbouring spaces somewhere in [s]. *)
Fixpoint double_space (s : str) : bool :=
  match s with
  | [] => false
  | c :: s' =>
      ((c =? space)%N && match s' with [] => false | d :: _ => (d =? space)%N end)
      || double_space s'
  end.

(** The cleaning step of the extractor. *)
Definition normalize (text : str) : str := join [space] (split text).

(** A document without extractable text: every page (if any) yields text,
    and that text is whitespace only. *)
Definition no_extractable_text (doc : document) : Prop :=
  Forall (fun p => exists t, p = PageText t /\ blank t) (pages doc).

(** The exceptions for which [_call_llm] waits and tries again. *)
Definition retryable (e : exn) : bool :=
  match e with
  | RateLimitError _ | APIError _ => true
  | _ => false
  end.

(** A response whose first choice carries the message body [c]. *)
Definition has_content (response : ChatCompletion) (c : option str) : Prop :=
  exists rest, choices response = {| message := Some {| content := c |} |} :: rest.

(** A response with an empty or missing message body. *)
Definition empty_body (response : ChatCompletion) : Prop :=
  choices response = [] \/
  (exists rest, choices response = {| message := None |} :: rest) \/
  has_content response None \/
  has_content response (Some []).

Definition request_of (self : Chatbot) (system_prompt user_prompt : str) : request :=
  {| req_model := model self;
     req_system := system_prompt;
     req_user := user_prompt;
     req_temperature := temperature self |}.

(** The user prompts of the API calls of a trace, in order. *)
Definition user_prompts (ev : list event) : list str :=
  flat_map (fun e => match e with ApiCall r => [req_user r] | _ => [] end) ev.

(** What the orchestrator logs about the length of the text. *)
Definition length_events (paper_text : str) : list event :=
  Log INFO (TextExtracted (len paper_text)) ::
  (if (len paper_text >? MAX_TEXT_LENGTH_WARN)%Z
   then [Log WARNING (ExtractedTextLong (len paper_text))]
   else if (len paper_text <? 500)%Z
        then [Log WARNING (ExtractedTextVeryShort (len paper_text))]
        else []).

Definition extractor_bot : Chatbot := {| model := LLM_MODEL; temperature := (3 # 10)%Q |}.
Definition synthesizer_bot : Chatbot := {| model := LLM_MODEL; temperature := (6 # 10)%Q |}.

(** The trace of the orchestrator up to the first LLM stage, after the
    extractor emitted [ev0] and returned [paper_text]. *)
Definition before_extractor (pdf_path : str) (ev0 : list event) (paper_text : str)
    : list event :=
  [Log INFO (StartingDigestion pdf_path); Log INFO Step1ExtractingText] ++ ev0 ++
  length_events paper_text ++
  [Log INFO (ChatbotInitialized LLM_MODEL); Log INFO (ChatbotInitialized LLM_MODEL);
   Log INFO Step2ExtractorBot].

(** Some step of the PDF library raises on this path. *)
Definition library_raises (E : environment) (pdf_path : str) : Prop :=
  match fitz_open E pdf_path with
  | OpenRaises _ => True
  | Opened doc => (exists e, In (PageRaises e) (pages doc)) \/ close_raises doc <> None
  end.

(** The warning logged before a retry. *)
Definition retry_warning (e : exn) (delay attempt max_retries : Z) : log_msg :=
  match e with
  | RateLimitError _ => RateLimitRetrying delay attempt max_retries
  | _ => APIErrorRetrying e delay attempt max_retries
  end.

(** The opening brace, first character of the placeholder. *)
Definition brace : char := 123%N.

(** Log records, the only events the extractor emits. *)
Definition is_log (e : event) : bool :=
  match e with Log _ _ => true | _ => false end.

(** The events one call of the client may emit: log records, calls with the
    one request built from its arguments, sleeps of the configured delay;
    it prints nothing. *)
Definition client_event (r : request) (delay : Z) (e : event) : Prop :=
  match e with
  | Log _ _ => True
  | ApiCall r' => r' = r
  | Sleep d => d = delay
  | Printed _ => False
  end.

(** Log records at ERROR level. *)
Definition is_error (e : event) : bool :=
  match e with Log ERROR _ => true | _ => false end.

(** The number of sleeps a trace shows. *)
Definition sleeps (ev : list event) : nat := List.length (filter is_sleep ev).

(** What the run prints, in order. *)
Definition printed (ev : list event) : list str :=
  flat_map (fun e => match e with Printed s => [s] | _ => [] end) ev.

(** The [ValueError] that [Chatbot.__init__] raises. *)
Definition key_not_set : exn :=
  ValueError (u "OPENAI_API_KEY environment variable not set.").

(* ===================================================================== *)
(** * Worlds and inputs used as examples *)
(* ===================================================================== *)

(** A world given by one document for every path, the API key, and a script
    of API answers: the n-th call gets the n-th outcome of [script], and
    [otherwise] once the script is used up. *)
Definition scripted (doc : open_result) (key : option str)
    (script : list api_outcome) (otherwise : api_outcome) : environment :=
  {| fitz_open := fun _ => doc;
     OPENAI_API_KEY := key;
     chat_completions_create := fun n _ => nth n script otherwise |}.

Definition completion (c : option str) : api_outcome :=
  Returns {| choices := [{| message := Some {| content := c |} |}] |}.

Definition three_pages : open_result :=
  Opened {| pages := [PageText (u "Problem X.
"); PageText (u "  Method Y.	 "); PageText (u "Result   Z. ")];
            close_raises := None |}.

Definition zero_pages : open_result :=
  Opened {| pages := []; close_raises := None |}.

Definition demo_key : option str := Some (u "sk-demo").

Definition failing_synthesis : environment :=
  scripted three_pages demo_key
           [completion (Some (u " facts ")); Raises (OtherException (u "boom"))]
           (Raises (OtherException (u "boom"))).

Definition blank_extraction : environment :=
  scripted three_pages demo_key
           [completion (Some (u "  
 "))]
           (completion (Some (u "late"))).

(** A paper of 8001 characters: 8000 times the letter a, then a hash sign. *)
Definition long_paper : str := repeat 97%N (Z.to_nat 8000) ++ [35%N].

Definition long_paper_run : environment :=
  scripted (Opened {| pages := [PageText long_paper]; close_raises := None |})
           demo_key
           [completion (Some (u "facts")); completion (Some (u "digest"))]
           (Raises (OtherException [])).

Definition two_answers : environment :=
  scripted three_pages demo_key
           [completion (Some (u " facts ")); completion (Some (u "digest
"))]
           (Raises (OtherException [])).

(** A paper of exactly 500 characters: 100 times the word [word] with
    single spaces between, and a full stop. *)
Definition paper_of_500 : str :=
  join [space] (repeat (u "word") 100) ++ u ".".

Definition APIConnectionError (msg : str) : exn := APIError msg.
Definition APITimeoutError (msg : str) : exn := APIError msg.
Definition APIResponseValidationError (msg : str) : exn := APIError msg.


(** A short paper and an API whose first call fails for good. *)
Definition failing_extraction : environment :=
  scripted three_pages demo_key [] (Raises (OtherException (u "boom"))).

(** An API that is rate limited once, then answers with text between
    whitespace. *)
Definition padded_answer : environment :=
  scripted three_pages demo_key
           [Raises (RateLimitError (u "rate limit")); completion (Some (u "  two words 
"))]
           (Raises (OtherException [])).

(* ===================================================================== *)
(** * Strings: splitting, joining, stripping, replacing *)
(* ===================================================================== *)

Lemma isspace_space : isspace space = true.
Proof. reflexivity. Qed.

Lemma nospace_not_space c : isspace c = false -> (c =? space)%N = false.
Proof.
  intros H. destruct (N.eqb_spec c space) as [->|]; [|reflexivity].
  rewrite isspace_space in H. discriminate.
Qed.

Lemma split_from_words s : forall cur, nospace cur -> Forall word (split_from cur s).
Proof.
  induction s as [|c s IH]; intros cur Hcur; simpl.
  - destruct cur; constructor; [|constructor].
    split; [discriminate | assumption].
  - destruct (isspace c) eqn:Hc.
    + destruct cur.
      * apply IH. constructor.
      * constructor; [split; [discriminate | assumption]|].
        apply IH. constructor.
    + apply IH. apply Forall_app. split; [assumption|].
      constructor; [assumption | constructor].
Qed.

Lemma split_words s : Forall word (split s).
Proof. apply split_from_words. constructor. Qed.

Lemma split_from_app_word w : forall cur rest,
  nospace w -> split_from cur (w ++ rest) = split_from (cur ++ w) rest.
Proof.
  induction w as [|c w IH]; intros cur rest Hw; simpl.
  - now rewrite app_nil_r.
  - inversion Hw as [|? ? Hc Hw']; subst. rewrite Hc.
    rewrite IH by assumption. now rewrite <- app_assoc.
Qed.

Lemma split_from_blank t : forall rest,
  blank t -> split_from [] (t ++ rest) = split_from [] rest.
Proof.
  induction t as [|c t IH]; intros rest Ht; simpl; [reflexivity|].
  inversion Ht as [|? ? Hc Ht']; subst. rewrite Hc. now apply IH.
Qed.

Lemma split_blank t : blank t -> split t = [].
Proof.
  intros Ht. unfold split. rewrite <- (app_nil_r t).
  now rewrite split_from_blank.
Qed.

(** Splitting what [join] put together gives the words back. *)
Lemma split_join ws : Forall word ws -> split (join [space] ws) = ws.
Proof.
  unfold split. induction ws as [|w ws IH]; intros Hws; [reflexivity|].
  inversion Hws as [|? ? [Hne Hw] Hws']; subst. simpl.
  destruct ws as [|w2 ws].
  - pose proof (split_from_app_word w [] [] Hw) as Hsplit.
    rewrite app_nil_r in Hsplit. rewrite Hsplit.
    simpl. destruct w; [contradiction | reflexivity].
  - rewrite split_from_app_word by assumption. simpl app at 1.
    change ([space] ++ join [space] (w2 :: ws)) with (space :: join [space] (w2 :: ws)).
    cbn [split_from]. rewrite isspace_space.
    destruct w; [contradiction|]. f_equal. now apply IH.
Qed.

Lemma normalize_idempotent text : normalize (normalize text) = normalize text.
Proof.
  unfold normalize. rewrite split_join; [reflexivity | apply split_words].
Qed.

Lemma join_head w ws :
  word w -> exists c r, join [space] (w :: ws) = c :: r /\ isspace c = false.
Proof.
  intros [Hne Hw]. destruct w as [|c w]; [contradiction|].
  inversion Hw; subst. simpl. destruct ws; eexists; eexists; split; eauto.
Qed.

(** Every character of the joined words is a non-whitespace character or the
    separating space. *)
Lemma join_chars ws :
  Forall word ws ->
  Forall (fun c => isspace c = false \/ c = space) (join [space] ws).
Proof.
  induction ws as [|w ws IH]; intros Hws; [constructor|].
  inversion Hws as [|? ? [_ Hw] Hws']; subst. simpl.
  assert (Hchars : Forall (fun c => isspace c = false \/ c = space) w)
    by (eapply Forall_impl; [|exact Hw]; auto).
  destruct ws; [assumption|].
  apply Forall_app. split; [assumption|].
  constructor; [now right | now apply IH].
Qed.

Lemma double_space_nospace_app w r :
  nospace w -> double_space (w ++ r) = double_space r.
Proof.
  induction w as [|c w IH]; intros Hw; [reflexivity|].
  inversion Hw as [|? ? Hc Hw']; subst.
  cbn [app double_space]. rewrite (nospace_not_space _ Hc). now apply IH.
Qed.

Lemma join_no_double_space ws :
  Forall word ws -> double_space (join [space] ws) = false.
Proof.
  induction ws as [|w ws IH]; intros Hws; [reflexivity|].
  inversion Hws as [|? ? [Hne Hw] Hws']; subst. simpl.
  destruct ws as [|w2 ws].
  - pose proof (double_space_nospace_app w [] Hw) as Hds.
    now rewrite app_nil_r in Hds.
  - rewrite double_space_nospace_app by assumption.
    inversion Hws' as [|? ? Hw2 _]; subst.
    destruct (join_head w2 ws Hw2) as (c & r & Hj & Hc).
    specialize (IH Hws'). rewrite Hj in *.
    change (double_space (space :: c :: r))
      with (((space =? space)%N && (c =? space)%N) || double_space (c :: r)).
    rewrite (nospace_not_space _ Hc), andb_false_r. exact IH.
Qed.

Lemma double_space_spec s :
  double_space s = false -> forall l1 l2, s <> l1 ++ space :: space :: l2.
Proof.
  intros H l1. revert s H.
  induction l1 as [|c l1 IH]; intros s H l2 ->.
  - simpl in H. discriminate.
  - cbn [app double_space] in H. apply orb_false_iff in H as [_ H].
    exact (IH _ H l2 eq_refl).
Qed.

Lemma join_trimmed ws : Forall word ws -> trimmed (join [space] ws).
Proof.
  intros Hws. split.
  - intros c r Heq. destruct ws as [|w ws]; [discriminate|].
    inversion Hws as [|? ? Hw _]; subst.
    destruct (join_head w ws Hw) as (c' & r' & Hj & Hc).
    rewrite Hj in Heq. now inversion Heq; subst.
  - induction ws as [|w ws IH]; intros c r Heq.
    + destruct r; discriminate.
    + inversion Hws as [|? ? [Hne Hw] Hws']; subst. simpl in Heq.
      destruct ws as [|w2 ws].
      * subst w. unfold nospace in Hw. rewrite Forall_forall in Hw.
        apply Hw. apply in_or_app. right. now left.
      * inversion Hws' as [|? ? Hw2 _]; subst.
        destruct (join_head w2 ws Hw2) as (c' & r' & Hj & _).
        destruct (@exists_last _ (join [space] (w2 :: ws))) as (r2 & c2 & Hlast).
        { rewrite Hj. discriminate. }
        rewrite Hlast in Heq.
        replace (w ++ space :: r2 ++ [c2]) with ((w ++ space :: r2) ++ [c2]) in Heq
          by (rewrite <- app_assoc; reflexivity).
        apply app_inj_tail in Heq as [_ <-].
        exact (IH Hws' c2 r2 Hlast).
Qed.

Lemma lstrip_trimmed s :
  (forall c r, s = c :: r -> isspace c = false) -> lstrip s = s.
Proof.
  intros H. destruct s as [|c r]; [reflexivity|].
  simpl. now rewrite (H c r eq_refl).
Qed.

Lemma strip_trimmed s : trimmed s -> strip s = s.
Proof.
  intros [Hhd Hlast]. unfold strip, rstrip.
  rewrite (lstrip_trimmed _ Hhd).
  rewrite lstrip_trimmed; [apply rev_involutive|].
  intros c r Heq. apply (Hlast c (rev r)).
  rewrite <- (rev_involutive s), Heq. reflexivity.
Qed.

Lemma lstrip_blank t : blank t -> lstrip t = [].
Proof.
  induction t as [|c t IH]; intros Ht; [reflexivity|].
  inversion Ht as [|? ? Hc Ht']; subst. simpl. rewrite Hc. now apply IH.
Qed.

Lemma strip_blank t : blank t -> strip t = [].
Proof.
  intros Ht. unfold strip, rstrip. now rewrite (lstrip_blank _ Ht).
Qed.

(* ===================================================================== *)
(** * Running computations *)
(* ===================================================================== *)

Lemma run_eta A (x : result A * list event * nat) :
  x = (value_of x, events_of x, calls_of x).
Proof. now destruct x as [[r ev] n]. Qed.

Lemma bind_ok A B (m : M A) (f : A -> M B) n a ev n1 :
  m n = (Ok a, ev, n1) ->
  bind m f n = (value_of (f a n1), ev ++ events_of (f a n1), calls_of (f a n1)).
Proof.
  intros H. unfold bind. rewrite H. now destruct (f a n1) as [[r ev'] n2].
Qed.

Lemma bind_raised A B (m : M A) (f : A -> M B) n e ev n1 :
  m n = (Raised e, ev, n1) -> bind m f n = (Raised e, ev, n1).
Proof. intros H. unfold bind. now rewrite H. Qed.

Lemma bind_emit A (e : event) (k : unit -> M A) n :
  bind (emit e) k n = (value_of (k tt n), e :: events_of (k tt n), calls_of (k tt n)).
Proof. apply (@bind_ok _ _ (emit e) k n tt [e] n). reflexivity. Qed.

Lemma bind_ret A B (a : A) (k : A -> M B) n : bind (ret a) k n = k a n.
Proof.
  rewrite (@bind_ok _ _ (ret a) k n a [] n) by reflexivity.
  symmetry. apply run_eta.
Qed.

(* ===================================================================== *)
(** * The text extractor *)
(* ===================================================================== *)

Lemma read_pages_run ps : forall text n,
  read_pages ps text n = (value_of (read_pages ps text 0), [], n).
Proof.
  induction ps as [|[t|e] ps IH]; intros text n; simpl;
    [reflexivity | apply IH | reflexivity].
Qed.

Lemma read_pages_raises ps : forall text e,
  In (PageRaises e) ps -> exists e', value_of (read_pages ps text 0) = Raised e'.
Proof.
  induction ps as [|[t|e0] ps IH]; intros text e Hin; simpl.
  - contradiction.
  - destruct Hin as [Heq|Hin]; [discriminate | eauto].
  - now exists e0.
Qed.

Lemma read_pages_ok ps : forall text t' e,
  value_of (read_pages ps text 0) = Ok t' -> ~ In (PageRaises e) ps.
Proof.
  intros text t' e Hok Hin.
  destruct (read_pages_raises ps text e Hin) as [e' He']. congruence.
Qed.

Lemma read_pages_blank ps : forall text,
  Forall (fun p => exists t, p = PageText t /\ blank t) ps -> blank text ->
  exists t', value_of (read_pages ps text 0) = Ok t' /\ blank t'.
Proof.
  induction ps as [|p ps IH]; intros text Hps Htext; simpl.
  - now exists text.
  - inversion Hps as [|? ? (t & -> & Ht) Hps']; subst.
    apply IH; [assumption|]. apply Forall_app. now split.
Qed.

(** The extractor never raises and never calls the API; it returns either
    the normalized concatenation of the pages' text, or [None] after an
    exception of the library. *)
Lemma extract_text_from_pdf_run E pdf_path n :
  match fitz_open E pdf_path with
  | OpenRaises e =>
      extract_text_from_pdf E pdf_path n =
      (Ok None, [Log INFO (OpeningPDF pdf_path);
                 Log ERROR (ErrorProcessingPDF pdf_path e)], n)
  | Opened doc =>
      let opened := [Log INFO (OpeningPDF pdf_path);
                     Log INFO (ExtractingPages (Z.of_nat (List.length (pages doc))))] in
      match value_of (read_pages (pages doc) [] 0), close_raises doc with
      | Raised e, _ | Ok _, Some e =>
          extract_text_from_pdf E pdf_path n =
          (Ok None, opened ++ [Log ERROR (ErrorProcessingPDF pdf_path e)], n)
      | Ok text, None =>
          extract_text_from_pdf E pdf_path n =
          (Ok (Some (normalize text)), opened ++ [Log INFO (ExtractedChars (len text))], n)
      end
  end.
Proof.
  unfold extract_text_from_pdf, catch, bind, fitz_open_, doc_close, logging_info,
    logging_error, emit, ret, raise.
  destruct (fitz_open E pdf_path) as [e|doc]; [reflexivity|].
  cbv zeta. rewrite (read_pages_run (pages doc) [] n).
  destruct (value_of (read_pages (pages doc) [] 0)) as [text|e]; [|reflexivity].
  destruct (close_raises doc); reflexivity.
Qed.

Lemma extract_text_from_pdf_cases E pdf_path n :
  exists r ev,
    extract_text_from_pdf E pdf_path n = (Ok r, ev, n) /\
    (forall n', extract_text_from_pdf E pdf_path n' = (Ok r, ev, n')) /\
    match r with
    | Some s => exists text, s = normalize text
    | None => library_raises E pdf_path
    end.
Proof.
  assert (H := fun n => extract_text_from_pdf_run E pdf_path n).
  unfold library_raises.
  destruct (fitz_open E pdf_path) as [e|doc].
  - do 2 eexists. split; [apply H | split; [intros; apply H | exact I]].
  - cbv zeta in H.
    destruct (value_of (read_pages (pages doc) [] 0)) as [text|e] eqn:Hread.
    + destruct (close_raises doc) eqn:Hclose.
      * do 2 eexists. split; [apply H | split; [intros; apply H |]].
        right. discriminate.
      * do 2 eexists. split; [apply H | split; [intros; apply H |]].
        now exists text.
    + do 2 eexists. split; [apply H | split; [intros; apply H |]].
      left. destruct (pages doc) as [|p ps] eqn:Hp; [discriminate|].
      clear - Hread. revert Hread. generalize (@nil char).
      induction (p :: ps) as [|[t|e0] l IH]; simpl; intros text Hread.
      * discriminate.
      * destruct (IH _ Hread) as [e1 He1]. exists e1. now right.
      * exists e0. now left.
Qed.

(** C7 (as stated, refuted): a PDF with zero pages makes the extractor return
    the empty string, a present result, and not the absence marker [None]. *)
Lemma extract_zero_pages_not_None :
  no_extractable_text {| pages := []; close_raises := None |} /\
  value_of (extract_text_from_pdf
              (scripted zero_pages None [] (Raises (OtherException [])))
              (u "empty.pdf") 0) = Ok (Some []) /\
  value_of (extract_text_from_pdf
              (scripted zero_pages None [] (Raises (OtherException [])))
              (u "empty.pdf") 0) <> Ok None.
Proof.
  split; [constructor|]. split; [reflexivity | discriminate].
Qed.

(** C7 (amended): no exception escapes the extractor, for any path; it
    returns [None] exactly when a step of the PDF library raises; for a PDF
    with zero pages or with whitespace-only text it returns the empty string,
    which is a present result that the callers' truth test rejects. *)
Theorem extract_text_from_pdf_absence E pdf_path n :
  (exists r, value_of (extract_text_from_pdf E pdf_path n) = Ok r) /\
  (value_of (extract_text_from_pdf E pdf_path n) = Ok None <->
   library_raises E pdf_path) /\
  (forall doc,
      fitz_open E pdf_path = Opened doc ->
      close_raises doc = None ->
      no_extractable_text doc ->
      value_of (extract_text_from_pdf E pdf_path n) = Ok (Some []) /\
      truthy (Some []) = false).
Proof.
  destruct (extract_text_from_pdf_cases E pdf_path n) as (r & ev & Hrun & _ & Hr).
  split; [|split].
  - exists r. now rewrite Hrun.
  - rewrite Hrun. unfold value_of; simpl. split.
    + intros Heq. inversion Heq; subst. exact Hr.
    + intros Hraises. destruct r as [s|]; [|reflexivity]. exfalso.
      pose proof (extract_text_from_pdf_run E pdf_path n) as H.
      unfold library_raises in Hraises.
      destruct (fitz_open E pdf_path) as [e|doc]; [rewrite H in Hrun; discriminate|].
      cbv zeta in H.
      destruct (value_of (read_pages (pages doc) [] 0)) as [text|e] eqn:Hread;
        [|rewrite H in Hrun; discriminate].
      destruct (close_raises doc) eqn:Hclose; [rewrite H in Hrun; discriminate|].
      destruct Hraises as [[e He]|Hc]; [|now apply Hc].
      exact (read_pages_ok _ _ _ e Hread He).
  - intros doc Hopen Hclose Hblank. split; [|reflexivity].
    pose proof (extract_text_from_pdf_run E pdf_path n) as H.
    rewrite Hopen in H. cbv zeta in H.
    destruct (read_pages_blank _ [] Hblank) as (t' & Hread & Ht');
      [constructor|].
    rewrite Hread, Hclose in H. rewrite H. unfold value_of; simpl.
    unfold normalize. now rewrite (split_blank _ Ht').
Qed.

Lemma extract_text_from_pdf_absence_witness :
  fitz_open (scripted zero_pages None [] (Raises (OtherException []))) (u "empty.pdf")
  = zero_pages /\
  value_of (extract_text_from_pdf
              (scripted zero_pages None [] (Raises (OtherException [])))
              (u "empty.pdf") 0) = Ok (Some []).
Proof.
  split; [reflexivity|].
  apply (proj2 (proj2 (extract_text_from_pdf_absence
                         (scripted zero_pages None [] (Raises (OtherException [])))
                         (u "empty.pdf") 0))
           {| pages := []; close_raises := None |}).
  - reflexivity.
  - reflexivity.
  - constructor.
Defined.

(** C8: whenever the extractor returns text, that text holds no tab, no
    newline and no other whitespace than single spaces, has no two
    consecutive spaces and no leading or trailing whitespace; extracting
    again from the same file returns the same text, and normalizing the
    result again leaves it unchanged. *)
Theorem extract_text_from_pdf_normalized E pdf_path n s :
  value_of (extract_text_from_pdf E pdf_path n) = Ok (Some s) ->
  ~ In tab s /\ ~ In newline s /\
  (forall c, In c s -> isspace c = true -> c = space) /\
  (forall l1 l2, s <> l1 ++ space :: space :: l2) /\
  trimmed s /\ strip s = s /\
  (forall n', value_of (extract_text_from_pdf E pdf_path n') = Ok (Some s)) /\
  normalize s = s.
Proof.
  intros Hs.
  destruct (extract_text_from_pdf_cases E pdf_path n) as (r & ev & Hrun & Hagain & Hr).
  rewrite Hrun in Hs. unfold value_of in Hs; simpl in Hs.
  inversion Hs; subst r. destruct Hr as [text ->].
  pose proof (split_words text) as Hwords.
  assert (Hchars : forall c, In c (normalize text) -> isspace c = true -> c = space).
  { intros c Hin Hc. pose proof (join_chars _ Hwords) as Hall.
    rewrite Forall_forall in Hall. destruct (Hall c Hin); congruence. }
  repeat split.
  - intros Hin. now specialize (Hchars tab Hin eq_refl).
  - intros Hin. now specialize (Hchars newline Hin eq_refl).
  - exact Hchars.
  - apply double_space_spec. now apply join_no_double_space.
  - now apply join_trimmed.
  - now apply join_trimmed.
  - apply strip_trimmed. now apply join_trimmed.
  - intros n'. now rewrite Hagain.
  - apply normalize_idempotent.
Qed.

Lemma extract_text_from_pdf_normalized_witness :
  value_of (extract_text_from_pdf
              (scripted three_pages None [] (Raises (OtherException [])))
              (u "paper.pdf") 0)
  = Ok (Some (u "Problem X. Method Y. Result Z.")) /\
  normalize (u "Problem X. Method Y. Result Z.") = u "Problem X. Method Y. Result Z.".
Proof.
  split; [reflexivity|].
  apply (extract_text_from_pdf_normalized
           (scripted three_pages None [] (Raises (OtherException [])))
           (u "paper.pdf") 0 (u "Problem X. Method Y. Result Z.")).
  reflexivity.
Defined.

(* ===================================================================== *)
(** * The LLM client *)
(* ===================================================================== *)

Section Client.

Variable E : environment.
Variable self : Chatbot.
Variables system_prompt user_prompt : str.
Variables max_retries delay : Z.

Local Notation "'req'" := (request_of self system_prompt user_prompt).
Local Notation "'loop'" := (while_attempt E self system_prompt user_prompt max_retries delay).
Local Notation "'once'" := (attempt_once E self system_prompt user_prompt max_retries delay).

Lemma while_attempt_step attempt :
  loop attempt =
  if (attempt <? max_retries)%Z then
    (f <- once attempt;;
     match f with
     | Return v => ret v
     | Retry => loop (attempt + 1)%Z
     end)
  else (logging_error LLMFailedAfterRetries;; ret None).
Proof.
  rewrite while_attempt_equation_1. unfold inspect.
  generalize (@eq_refl bool (attempt <? max_retries)%Z).
  generalize ((attempt <? max_retries)%Z) at 2 4 5.
  intros [] H; reflexivity.
Qed.

Lemma while_attempt_exit attempt n :
  (max_retries <= attempt)%Z ->
  loop attempt n = (Ok None, [Log ERROR LLMFailedAfterRetries], n).
Proof.
  intros H. rewrite while_attempt_step.
  apply Z.ltb_ge in H. rewrite H. reflexivity.
Qed.

Lemma while_attempt_return attempt n v ev n1 :
  (attempt < max_retries)%Z ->
  once attempt n = (Ok (Return v), ev, n1) ->
  loop attempt n = (Ok v, ev, n1).
Proof.
  intros H Honce. rewrite while_attempt_step.
  apply Z.ltb_lt in H. rewrite H.
  rewrite (@bind_ok _ _ _ _ _ _ _ _ Honce). unfold ret, value_of, events_of, calls_of; simpl.
  now rewrite app_nil_r.
Qed.

Lemma while_attempt_retry attempt n ev n1 :
  (attempt < max_retries)%Z ->
  once attempt n = (Ok Retry, ev, n1) ->
  loop attempt n =
  (value_of (loop (attempt + 1)%Z n1),
   ev ++ events_of (loop (attempt + 1)%Z n1),
   calls_of (loop (attempt + 1)%Z n1)).
Proof.
  intros H Honce. rewrite while_attempt_step.
  apply Z.ltb_lt in H. rewrite H.
  now rewrite (@bind_ok _ _ _ _ _ _ _ _ Honce).
Qed.

(** One pass through the loop body, by the answer of the API. *)
Lemma attempt_once_retryable attempt n e :
  chat_completions_create E n req = Raises e ->
  retryable e = true ->
  (0 <= delay)%Z ->
  once attempt n =
  (Ok Retry,
   [Log INFO (CallingLLM (attempt + 1) max_retries); ApiCall req;
    Log WARNING (retry_warning e delay (attempt + 1) max_retries); Sleep delay],
   S n).
Proof.
  intros Hapi Hre Hdelay. apply Z.ltb_ge in Hdelay.
  unfold attempt_once, catch, bind, create, logging_info, logging_warning,
    time_sleep, emit, ret; simpl.
  unfold request_of in Hapi. rewrite Hapi.
  destruct e; try discriminate; simpl; rewrite Hdelay; reflexivity.
Qed.


Lemma attempt_once_content attempt n response c :
  chat_completions_create E n req = Returns response ->
  has_content response (Some c) ->
  c <> [] ->
  once attempt n =
  (Ok (Return (Some (strip c))),
   [Log INFO (CallingLLM (attempt + 1) max_retries); ApiCall req;
    Log INFO LLMCallSuccessful],
   S n).
Proof.
  intros Hapi [rest Hc] Hne.
  unfold attempt_once, catch, bind, create, logging_info, emit, ret; simpl.
  unfold request_of in Hapi. rewrite Hapi, Hc. simpl.
  destruct c; [contradiction | reflexivity].
Qed.

Lemma attempt_once_empty attempt n response :
  chat_completions_create E n req = Returns response ->
  empty_body response ->
  exists w,
    once attempt n =
    (Ok (Return None),
     [Log INFO (CallingLLM (attempt + 1) max_retries); ApiCall req; Log WARNING w],
     S n).
Proof.
  intros Hapi Hempty.
  unfold attempt_once, catch, bind, create, logging_info, logging_warning,
    emit, ret; simpl.
  unfold request_of in Hapi. rewrite Hapi.
  destruct Hempty as [Hc|[[rest Hc]|[[rest Hc]|[rest Hc]]]]; rewrite Hc; simpl;
    eexists; reflexivity.
Qed.

(** Retryable failures all the way: the loop runs until [attempt] reaches
    [max_retries], one call and one sleep per pass. *)
Lemma while_attempt_all_retryable k : forall attempt n,
  Z.to_nat (max_retries - attempt) = k ->
  (0 <= delay)%Z ->
  (forall i, n <= i ->
     exists e, chat_completions_create E i req = Raises e /\ retryable e = true) ->
  value_of (loop attempt n) = Ok None /\
  calls_of (loop attempt n) = n + k /\
  attempts (events_of (loop attempt n)) = k /\
  calls_and_sleeps (events_of (loop attempt n)) =
  List.concat (repeat [ApiCall req; Sleep delay] k).
Proof.
  induction k as [|k IH]; intros attempt n Hk Hdelay Hapi.
  - rewrite while_attempt_exit by lia. repeat split. simpl. lia.
  - destruct (Hapi n (le_n n)) as (e & He & Hre).
    rewrite (@while_attempt_retry attempt n _ _ ltac:(lia)
               (@attempt_once_retryable attempt _ _ He Hre Hdelay)).
    destruct (IH (attempt + 1)%Z (S n)) as (Hv & Hc & Ha & Hcs);
      [lia | assumption | intros i Hi; apply Hapi; lia |].
    unfold value_of, events_of, calls_of in *; simpl.
    repeat split.
    + exact Hv.
    + rewrite Hc. lia.
    + unfold attempts in *. simpl. now rewrite Ha.
    + unfold calls_and_sleeps in *. simpl. now rewrite Hcs.
Qed.

(** [k] retryable failures, then a completion with a non-empty body. *)
Lemma while_attempt_retry_then_content k : forall attempt n response c,
  (attempt + Z.of_nat k < max_retries)%Z ->
  (0 <= delay)%Z ->
  (forall i, i < k ->
     exists e, chat_completions_create E (n + i) req = Raises e /\ retryable e = true) ->
  chat_completions_create E (n + k) req = Returns response ->
  has_content response (Some c) ->
  c <> [] ->
  value_of (loop attempt n) = Ok (Some (strip c)) /\
  calls_of (loop attempt n) = n + k + 1 /\
  attempts (events_of (loop attempt n)) = k + 1 /\
  calls_and_sleeps (events_of (loop attempt n)) =
  List.concat (repeat [ApiCall req; Sleep delay] k) ++ [ApiCall req].
Proof.
  induction k as [|k IH]; intros attempt n response c Hlt Hdelay Hfail Hok Hc Hne.
  - rewrite Nat.add_0_r in Hok.
    rewrite (@while_attempt_return attempt n _ _ _ ltac:(lia)
               (@attempt_once_content attempt _ _ _ Hok Hc Hne)).
    repeat split. unfold calls_of; simpl. lia.
  - destruct (Hfail 0 (Nat.lt_0_succ k)) as (e & He & Hre).
    rewrite Nat.add_0_r in He.
    rewrite (@while_attempt_retry attempt n _ _ ltac:(lia)
               (@attempt_once_retryable attempt _ _ He Hre Hdelay)).
    destruct (IH (attempt + 1)%Z (S n) response c) as (Hv & Hcalls & Ha & Hcs);
      try assumption; [lia | | |].
    + intros i Hi. destruct (Hfail (S i)) as (e' & He' & Hre'); [lia|].
      exists e'. split; [|assumption]. now replace (S n + i) with (n + S i) by lia.
    + now replace (S n + k) with (n + S k) by lia.
    + unfold value_of, events_of, calls_of in *; simpl.
      repeat split.
      * exact Hv.
      * rewrite Hcalls. lia.
      * unfold attempts in *. simpl. now rewrite Ha.
      * unfold calls_and_sleeps in *. simpl. now rewrite Hcs.
Qed.

End Client.




(** C4: when every attempt fails with a rate limit or an API error, the
    client makes exactly [max_retries] attempts, sleeps [delay] after each of
    them, and returns [None]; with the defaults of [execute_task] these are
    3 attempts with a sleep of 5 after each. *)
Theorem call_llm_exhausts_retries E self system_prompt user_prompt
    max_retries delay n :
  (0 <= max_retries)%Z ->
  (0 <= delay)%Z ->
  (forall i, n <= i ->
     exists e,
       chat_completions_create E i (request_of self system_prompt user_prompt) = Raises e /\
       retryable e = true) ->
  (value_of (_call_llm E self system_prompt user_prompt max_retries delay n) = Ok None /\
   Z.of_nat (attempts (events_of
      (_call_llm E self system_prompt user_prompt max_retries delay n))) = max_retries /\
   calls_of (_call_llm E self system_prompt user_prompt max_retries delay n)
   = n + Z.to_nat max_retries /\
   calls_and_sleeps (events_of
      (_call_llm E self system_prompt user_prompt max_retries delay n))
   = List.concat (repeat [ApiCall (request_of self system_prompt user_prompt); Sleep delay]
                         (Z.to_nat max_retries))) /\
  (value_of (execute_task E self system_prompt user_prompt n) = Ok None /\
   attempts (events_of (execute_task E self system_prompt user_prompt n)) = 3 /\
   calls_and_sleeps (events_of (execute_task E self system_prompt user_prompt n))
   = [ApiCall (request_of self system_prompt user_prompt); Sleep 5;
      ApiCall (request_of self system_prompt user_prompt); Sleep 5;
      ApiCall (request_of self system_prompt user_prompt); Sleep 5]).
Proof.
  intros Hmax Hdelay Hapi. split.
  - unfold _call_llm.
    destruct (@while_attempt_all_retryable E self system_prompt user_prompt
                max_retries delay (Z.to_nat max_retries) 0%Z n)
      as (Hv & Hc & Ha & Hcs); [f_equal; lia | assumption | assumption |].
    repeat split; try assumption. rewrite Ha. lia.
  - unfold execute_task, logging_info. rewrite bind_emit. unfold _call_llm.
    destruct (@while_attempt_all_retryable E self system_prompt user_prompt
                3 5 3 0%Z n)
      as (Hv & Hc & Ha & Hcs); [reflexivity | lia | assumption |].
    unfold value_of, events_of, calls_of in *; simpl.
    repeat split; assumption.
Qed.

Lemma call_llm_exhausts_retries_witness :
  value_of (_call_llm
              (scripted zero_pages None [Raises (APIError (u "server error"))]
                        (Raises (RateLimitError (u "rate limit"))))
              extractor_bot (u "role") (u "task") 4 2 0) = Ok None /\
  Z.of_nat (attempts (events_of (_call_llm
              (scripted zero_pages None [Raises (APIError (u "server error"))]
                        (Raises (RateLimitError (u "rate limit"))))
              extractor_bot (u "role") (u "task") 4 2 0))) = 4%Z.
Proof.
  assert (H := @call_llm_exhausts_retries
           (scripted zero_pages None [Raises (APIError (u "server error"))]
                     (Raises (RateLimitError (u "rate limit"))))
           extractor_bot (u "role") (u "task") 4 2 0).
  destruct H as ((Hv & Ha & _) & _).
  - lia.
  - lia.
  - intros [|i] _; simpl.
    + eexists; split; reflexivity.
    + destruct i; eexists; split; reflexivity.
  - split; assumption.
Defined.

(** C5 (as stated, refuted): a first-attempt completion with the body
    [" ok "] is not returned as it is; the client returns ["ok"]. *)
Lemma call_llm_returns_stripped_content :
  chat_completions_create
    (scripted zero_pages None [completion (Some (u " ok "))] (Raises (OtherException [])))
    0 (request_of extractor_bot (u "role") (u "task"))
  = completion (Some (u " ok ")) /\
  value_of (_call_llm
              (scripted zero_pages None [completion (Some (u " ok "))]
                        (Raises (OtherException [])))
              extractor_bot (u "role") (u "task") 3 5 0) = Ok (Some (u "ok")) /\
  value_of (_call_llm
              (scripted zero_pages None [completion (Some (u " ok "))]
                        (Raises (OtherException [])))
              extractor_bot (u "role") (u "task") 3 5 0) <> Ok (Some (u " ok ")).
Proof.
  split; [reflexivity|]. split; [reflexivity|].
  intros H. vm_compute in H. discriminate.
Qed.

(** C5 (amended): for every [k < max_retries] and a non-negative delay, if
    the API fails with a retryable error exactly [k] times and then returns a
    completion with a non-empty body, the client returns that body with
    leading and trailing whitespace stripped, after exactly [k + 1] attempts
    and a sleep of [delay] after each of the [k] failures. *)
Theorem call_llm_retry_then_success E self system_prompt user_prompt
    max_retries delay n k response c :
  (Z.of_nat k < max_retries)%Z ->
  (0 <= delay)%Z ->
  (forall i, i < k ->
     exists e,
       chat_completions_create E (n + i) (request_of self system_prompt user_prompt)
       = Raises e /\
       retryable e = true) ->
  chat_completions_create E (n + k) (request_of self system_prompt user_prompt)
  = Returns response ->
  has_content response (Some c) ->
  c <> [] ->
  value_of (_call_llm E self system_prompt user_prompt max_retries delay n)
  = Ok (Some (strip c)) /\
  attempts (events_of (_call_llm E self system_prompt user_prompt max_retries delay n))
  = k + 1 /\
  calls_of (_call_llm E self system_prompt user_prompt max_retries delay n) = n + k + 1 /\
  calls_and_sleeps (events_of
     (_call_llm E self system_prompt user_prompt max_retries delay n))
  = List.concat (repeat [ApiCall (request_of self system_prompt user_prompt); Sleep delay] k)
    ++ [ApiCall (request_of self system_prompt user_prompt)].
Proof.
  intros Hk Hdelay Hfail Hok Hc Hne. unfold _call_llm.
  destruct (@while_attempt_retry_then_content E self system_prompt user_prompt
              max_retries delay k 0%Z n response c)
    as (Hv & Hcalls & Ha & Hcs); try assumption.
  repeat split; assumption.
Qed.

Lemma call_llm_retry_then_success_witness :
  value_of (_call_llm
              (scripted zero_pages None
                        [Raises (RateLimitError (u "rate limit"));
                         Raises (APIError (u "server error"));
                         completion (Some (u " ok "))]
                        (Raises (OtherException [])))
              extractor_bot (u "role") (u "task") 3 5 0) = Ok (Some (u "ok")).
Proof.
  apply (@call_llm_retry_then_success
           (scripted zero_pages None
                     [Raises (RateLimitError (u "rate limit"));
                      Raises (APIError (u "server error"));
                      completion (Some (u " ok "))]
                     (Raises (OtherException [])))
           extractor_bot (u "role") (u "task") 3 5 0 2
           {| choices := [{| message := Some {| content := Some (u " ok ") |} |}] |}
           (u " ok ")).
  - lia.
  - lia.
  - intros [|[|i]] Hi; [eexists; split; reflexivity .. | lia].
  - reflexivity.
  - exists []. reflexivity.
  - discriminate.
Defined.

(** C6: when the first call succeeds but the response has no choice, no
    message, or a missing or empty message body, the client returns [None]
    after exactly one attempt, without sleeping and without a second call. *)
Theorem call_llm_empty_body E self system_prompt user_prompt
    max_retries delay n response :
  (0 < max_retries)%Z ->
  chat_completions_create E n (request_of self system_prompt user_prompt)
  = Returns response ->
  empty_body response ->
  value_of (_call_llm E self system_prompt user_prompt max_retries delay n) = Ok None /\
  attempts (events_of (_call_llm E self system_prompt user_prompt max_retries delay n)) = 1 /\
  calls_of (_call_llm E self system_prompt user_prompt max_retries delay n) = S n /\
  filter is_sleep
    (events_of (_call_llm E self system_prompt user_prompt max_retries delay n)) = [].
Proof.
  intros Hmax Hapi Hempty. unfold _call_llm.
  destruct (@attempt_once_empty E self system_prompt user_prompt max_retries delay
              0%Z n response Hapi Hempty) as [w Hw].
  rewrite (@while_attempt_return E self system_prompt user_prompt max_retries delay
             0%Z n _ _ _ Hmax Hw).
  repeat split.
Qed.

Lemma call_llm_empty_body_witness :
  value_of (_call_llm
              (scripted zero_pages None [completion (Some [])]
                        (completion (Some (u "late"))))
              extractor_bot (u "role") (u "task") 3 5 0) = Ok None.
Proof.
  apply (@call_llm_empty_body
           (scripted zero_pages None [completion (Some [])]
                     (completion (Some (u "late"))))
           extractor_bot (u "role") (u "task") 3 5 0
           {| choices := [{| message := Some {| content := Some [] |} |}] |}).
  - lia.
  - reflexivity.
  - right. right. right. exists []. reflexivity.
Defined.

(** The client always returns: with a non-negative delay no exception
    escapes [_call_llm], and when [max_retries] is positive its trace starts
    with the first call to the API. *)
Lemma attempt_once_total E self system_prompt user_prompt max_retries delay attempt n :
  (0 <= delay)%Z ->
  exists f ev,
    attempt_once E self system_prompt user_prompt max_retries delay attempt n =
    (Ok f,
     [Log INFO (CallingLLM (attempt + 1) max_retries);
      ApiCall (request_of self system_prompt user_prompt)] ++ ev,
     S n).
Proof.
  intros Hdelay. apply Z.ltb_ge in Hdelay.
  unfold attempt_once, catch, bind, create, logging_info, logging_warning,
    logging_error, time_sleep, emit, ret, request_of; simpl.
  destruct (chat_completions_create E n _) as [response|e].
  - destruct (choices response) as [|[[[content]|]] rest]; simpl;
      try (do 2 eexists; reflexivity).
    destruct (truthy content); do 2 eexists; reflexivity.
  - destruct e; simpl; rewrite ?Hdelay; do 2 eexists; reflexivity.
Qed.

Lemma while_attempt_total E self system_prompt user_prompt max_retries delay :
  (0 <= delay)%Z ->
  forall k attempt n,
    Z.to_nat (max_retries - attempt) = k ->
    exists r ev n1,
      while_attempt E self system_prompt user_prompt max_retries delay attempt n =
      (Ok r, ev, n1) /\
      ((attempt < max_retries)%Z ->
       exists ev',
         ev = [Log INFO (CallingLLM (attempt + 1) max_retries);
               ApiCall (request_of self system_prompt user_prompt)] ++ ev').
Proof.
  intros Hdelay. induction k as [|k IH]; intros attempt n Hk.
  - rewrite while_attempt_exit by lia. do 3 eexists. split; [reflexivity | lia].
  - destruct (@attempt_once_total E self system_prompt user_prompt max_retries delay
                attempt n Hdelay) as (f & ev & Honce).
    destruct f as [v|].
    + rewrite (@while_attempt_return E self system_prompt user_prompt max_retries
                 delay attempt n _ _ _ ltac:(lia) Honce).
      do 3 eexists. split; [reflexivity | intros _; now exists ev].
    + rewrite (@while_attempt_retry E self system_prompt user_prompt max_retries
                 delay attempt n _ _ ltac:(lia) Honce).
      destruct (IH (attempt + 1)%Z (S n)) as (r & ev1 & n1 & Hrun & _); [lia|].
      rewrite Hrun. unfold value_of, events_of, calls_of; simpl.
      do 3 eexists. split; [reflexivity | intros _; eexists; reflexivity].
Qed.

Lemma execute_task_returns E self role_prompt task_prompt n :
  exists r ev n1,
    execute_task E self role_prompt task_prompt n =
    (Ok r,
     [Log INFO (ExecutingTask (slice_to 100 role_prompt));
      Log INFO (CallingLLM 1 3);
      ApiCall (request_of self role_prompt task_prompt)] ++ ev,
     n1).
Proof.
  unfold execute_task, logging_info. rewrite bind_emit. unfold _call_llm.
  destruct (@while_attempt_total E self role_prompt task_prompt 3 5 ltac:(lia)
              3 0%Z n eq_refl) as (r & ev & n1 & Hrun & Hfirst).
  destruct Hfirst as [ev' ->]; [lia|].
  rewrite Hrun. unfold value_of, events_of, calls_of; simpl.
  do 3 eexists. reflexivity.
Qed.

(* ===================================================================== *)
(** * The orchestrator *)
(* ===================================================================== *)

Opaque extraction_task synthesis_task extractor_role synthesizer_role LLM_MODEL
  execute_task extractor_output_header final_digest_failed final_digest_header.

(** Extraction yields no text: the run stops there, before any chatbot is
    built and any call is made. *)
Lemma pipeline_aborts_without_text E pdf_path n r ev0 :
  extract_text_from_pdf E pdf_path n = (Ok r, ev0, n) ->
  truthy r = false ->
  run_digestion_pipeline E pdf_path n =
  (Ok tt,
   [Log INFO (StartingDigestion pdf_path); Log INFO Step1ExtractingText] ++ ev0 ++
   [Log ERROR FailedToExtractText],
   n).
Proof.
  intros Hextract Hr.
  unfold run_digestion_pipeline, logging_info, logging_error.
  rewrite !bind_emit. rewrite (@bind_ok _ _ _ _ _ _ _ _ Hextract). rewrite Hr.
  reflexivity.
Qed.

(** Extraction yields text: the run goes past the check and logs the length,
    with at most a warning, whatever the length is. *)
Lemma pipeline_continues_with_text E pdf_path n r ev0 :
  extract_text_from_pdf E pdf_path n = (Ok r, ev0, n) ->
  truthy r = true ->
  exists rest,
    events_of (run_digestion_pipeline E pdf_path n) =
    [Log INFO (StartingDigestion pdf_path); Log INFO Step1ExtractingText] ++ ev0 ++
    length_events (the r) ++ rest.
Proof.
  intros Hextract Hr.
  unfold run_digestion_pipeline, logging_info, logging_warning.
  rewrite !bind_emit. rewrite (@bind_ok _ _ _ _ _ _ _ _ Hextract). rewrite Hr.
  cbv zeta. cbn [negb]. rewrite bind_emit.
  unfold length_events.
  destruct (len (the r) >? MAX_TEXT_LENGTH_WARN)%Z;
    [|destruct (len (the r) <? 500)%Z];
    rewrite ?bind_emit, ?bind_ret; unfold events_of; cbn [fst snd app];
    eexists; reflexivity.
Qed.

(** The two LLM stages, once text is extracted and the API key is set. *)
Lemma pipeline_stages E pdf_path n text ev0 r1 ev1 n1 :
  extract_text_from_pdf E pdf_path n = (Ok (Some text), ev0, n) ->
  text <> [] ->
  truthy (OPENAI_API_KEY E) = true ->
  execute_task E extractor_bot extractor_role (extraction_task text) n = (Ok r1, ev1, n1) ->
  (truthy r1 = false ->
   run_digestion_pipeline E pdf_path n =
   (Ok tt,
    before_extractor pdf_path ev0 text ++ ev1 ++ [Log ERROR ExtractorBotFailed],
    n1)) /\
  (truthy r1 = true ->
   forall r2 ev2 n2,
     execute_task E synthesizer_bot synthesizer_role (synthesis_task (the r1) text) n1
     = (Ok r2, ev2, n2) ->
     run_digestion_pipeline E pdf_path n =
     (Ok tt,
      before_extractor pdf_path ev0 text ++ ev1 ++
      [Printed extractor_output_header; Printed (the r1); Log INFO Step3SynthesizerBot] ++
      ev2 ++
      (if truthy r2
       then [Printed final_digest_header; Printed (the r2); Log INFO PipelineCompleted]
       else [Log ERROR SynthesizerBotFailed; Printed final_digest_failed]),
      n2)).
Proof.
  intros Hextract Hne Hkey Hs1.
  unfold run_digestion_pipeline, logging_info, logging_warning, logging_error, print,
    Chatbot_init, catch.
  rewrite !bind_emit. rewrite (@bind_ok _ _ _ _ _ _ _ _ Hextract).
  destruct text as [|c text]; [contradiction|].
  cbn [truthy negb the]. cbv zeta. rewrite bind_emit.
  rewrite Hkey. cbn [negb].
  fold extractor_bot synthesizer_bot.
  unfold before_extractor, length_events.
  set (paper_text := c :: text) in *.
  split.
  - intros Hr1.
    destruct (len paper_text >? MAX_TEXT_LENGTH_WARN)%Z;
      [|destruct (len paper_text <? 500)%Z];
      unfold bind, emit, ret, logging_info; simpl; rewrite Hs1, Hr1;
      unfold value_of, events_of, calls_of; simpl;
      rewrite <- ?app_assoc; reflexivity.
  - intros Hr1 r2 ev2 n2 Hs2.
    destruct (len paper_text >? MAX_TEXT_LENGTH_WARN)%Z;
      [|destruct (len paper_text <? 500)%Z];
      unfold bind, emit, ret, logging_info; simpl; rewrite Hs1, Hr1; simpl;
      rewrite Hs2; destruct (truthy r2);
      unfold value_of, events_of, calls_of; simpl;
      rewrite <- ?app_assoc; reflexivity.
Qed.

Transparent extraction_task synthesis_task extractor_role synthesizer_role LLM_MODEL
  execute_task extractor_output_header final_digest_failed final_digest_header.

(** C9: when extraction and the extraction stage succeed and the synthesis
    stage yields nothing, the extraction-stage output is printed, under its
    header, before the synthesis stage runs and before its failure is
    reported; it stays in the output of the run. *)
Theorem extraction_output_precedes_synthesis_failure
    E pdf_path n text ev0 extraction ev1 n1 r2 ev2 n2 :
  extract_text_from_pdf E pdf_path n = (Ok (Some text), ev0, n) ->
  text <> [] ->
  truthy (OPENAI_API_KEY E) = true ->
  execute_task E extractor_bot extractor_role (extraction_task text) n
  = (Ok (Some extraction), ev1, n1) ->
  extraction <> [] ->
  execute_task E synthesizer_bot synthesizer_role (synthesis_task extraction text) n1
  = (Ok r2, ev2, n2) ->
  truthy r2 = false ->
  run_digestion_pipeline E pdf_path n =
  (Ok tt,
   before_extractor pdf_path ev0 text ++ ev1 ++
   [Printed extractor_output_header; Printed extraction] ++
   [Log INFO Step3SynthesizerBot] ++ ev2 ++
   [Log ERROR SynthesizerBotFailed; Printed final_digest_failed],
   n2).
Proof.
  intros Hextract Hne Hkey Hs1 Hne1 Hs2 Hr2.
  destruct (@pipeline_stages E pdf_path n text ev0 _ _ _ Hextract Hne Hkey Hs1)
    as [_ Hnext].
  destruct extraction as [|c extraction]; [contradiction|].
  rewrite (Hnext eq_refl _ _ _ Hs2), Hr2. reflexivity.
Qed.

Lemma extraction_output_precedes_synthesis_failure_witness :
  filter is_print (events_of (run_digestion_pipeline failing_synthesis (u "paper.pdf") 0))
  = [Printed extractor_output_header; Printed (u "facts"); Printed final_digest_failed].
Proof.
  rewrite (@extraction_output_precedes_synthesis_failure
             failing_synthesis (u "paper.pdf") 0
             (u "Problem X. Method Y. Result Z.")
             (events_of (extract_text_from_pdf failing_synthesis (u "paper.pdf") 0))
             (u "facts")
             (events_of (execute_task failing_synthesis extractor_bot extractor_role
                           (extraction_task (u "Problem X. Method Y. Result Z.")) 0))
             1
             None
             (events_of (execute_task failing_synthesis synthesizer_bot synthesizer_role
                           (synthesis_task (u "facts")
                              (u "Problem X. Method Y. Result Z.")) 1))
             2).
  - vm_compute. reflexivity.
  - vm_compute. reflexivity.
  - discriminate.
  - reflexivity.
  - vm_compute. reflexivity.
  - discriminate.
  - vm_compute. reflexivity.
  - reflexivity.
Defined.

(* ===================================================================== *)
(** * The text that reaches the API *)
(* ===================================================================== *)

Lemma replace_scan_absent c old new s :
  ~ In c s -> replace_scan (c :: old) new 0 s = s.
Proof.
  induction s as [|a s IH]; intros Hin; [reflexivity|].
  cbn [replace_scan startswith].
  destruct (N.eqb_spec a c) as [->|Hac].
  - exfalso. apply Hin. now left.
  - cbn [andb]. f_equal. apply IH. intros H. apply Hin. now right.
Qed.

(** Replacing a pattern whose first character does not occur changes
    nothing. *)
Lemma replace_absent s c old new : ~ In c s -> replace s (c :: old) new = s.
Proof. intros H. unfold replace. now apply replace_scan_absent. Qed.

Lemma no_brace_spec s : forallb (fun c => negb (c =? brace)%N) s = true -> ~ In brace s.
Proof.
  intros H Hin. rewrite forallb_forall in H. specialize (H _ Hin).
  now rewrite N.eqb_refl in H.
Qed.

(** The f-string has been evaluated when [.replace] runs: unless the text
    itself holds an opening brace, there is no placeholder left to replace
    and the prompt sent holds the first 8000 characters of the text. *)
Lemma extraction_task_sends_slice paper_text :
  ~ In brace (slice_to 8000 paper_text) ->
  extraction_task paper_text =
  extraction_prompt_head ++ slice_to 8000 paper_text ++ extraction_prompt_tail.
Proof.
  intros H. unfold extraction_task, extraction_prompt.
  change placeholder with (brace :: u "paper_text[:8000]}").
  apply replace_absent. rewrite !in_app_iff. intros [Hin|[Hin|Hin]].
  - revert Hin. apply no_brace_spec. vm_compute. reflexivity.
  - now apply H.
  - revert Hin. apply no_brace_spec. vm_compute. reflexivity.
Qed.

Lemma synthesis_task_sends_slice initial_extraction paper_text :
  ~ In brace initial_extraction ->
  ~ In brace (slice_to 8000 paper_text) ->
  synthesis_task initial_extraction paper_text =
  synthesis_prompt_head ++ initial_extraction ++ synthesis_prompt_middle ++
  slice_to 8000 paper_text ++ synthesis_prompt_tail.
Proof.
  intros He H. unfold synthesis_task, synthesis_prompt.
  change placeholder with (brace :: u "paper_text[:8000]}").
  apply replace_absent. rewrite !in_app_iff. intros [Hin|[Hin|[Hin|[Hin|Hin]]]].
  - revert Hin. apply no_brace_spec. vm_compute. reflexivity.
  - now apply He.
  - revert Hin. apply no_brace_spec. vm_compute. reflexivity.
  - now apply H.
  - revert Hin. apply no_brace_spec. vm_compute. reflexivity.
Qed.


Lemma startswith_in prefix : forall s c,
  startswith s prefix = true -> In c prefix -> In c s.
Proof.
  induction prefix as [|p prefix IH]; intros s c Hs Hin; [contradiction|].
  destruct s as [|a s]; [discriminate|].
  cbn [startswith] in Hs. apply andb_true_iff in Hs as [Hap Hs].
  apply N.eqb_eq in Hap. subst a.
  destruct Hin as [->|Hin]; [now left | right; eauto].
Qed.

(** A string that lacks a character of [needle] does not contain [needle]. *)
Lemma contains_in s : forall needle c,
  contains s needle = true -> In c needle -> In c s.
Proof.
  induction s as [|a s IH]; intros needle c Hs Hin; cbn [contains] in Hs.
  - rewrite orb_false_r in Hs. exact (startswith_in _ _ _ Hs Hin).
  - apply orb_true_iff in Hs as [Hs|Hs].
    + exact (startswith_in _ _ _ Hs Hin).
    + right. eauto.
Qed.

Lemma lacking_char_not_contained s needle c :
  In c needle ->
  forallb (fun a => negb (a =? c)%N) s = true ->
  contains s needle = false.
Proof.
  intros Hin Hs. destruct (contains s needle) eqn:Hc; [exfalso | reflexivity].
  pose proof (contains_in _ _ _ Hc Hin) as Hcs.
  rewrite forallb_forall in Hs. specialize (Hs _ Hcs).
  now rewrite N.eqb_refl in Hs.
Qed.

(** C1 (the code at a failing input): for a paper of 8001 characters the
    user prompts sent at the extraction stage and at the synthesis stage hold
    the first 8000 characters only; the full text is in neither of them. *)
Theorem long_paper_prompts_are_truncated :
  value_of (extract_text_from_pdf long_paper_run (u "long.pdf") 0) = Ok (Some long_paper) /\
  len long_paper = 8001%Z /\
  user_prompts (events_of (run_digestion_pipeline long_paper_run (u "long.pdf") 0)) =
  [extraction_prompt_head ++ slice_to 8000 long_paper ++ extraction_prompt_tail;
   synthesis_prompt_head ++ u "facts" ++ synthesis_prompt_middle ++
   slice_to 8000 long_paper ++ synthesis_prompt_tail] /\
  Forall (fun prompt => contains prompt long_paper = false)
         (user_prompts (events_of (run_digestion_pipeline long_paper_run (u "long.pdf") 0))).
Proof.
  assert (Hprompts :
    user_prompts (events_of (run_digestion_pipeline long_paper_run (u "long.pdf") 0)) =
    [extraction_prompt_head ++ slice_to 8000 long_paper ++ extraction_prompt_tail;
     synthesis_prompt_head ++ u "facts" ++ synthesis_prompt_middle ++
     slice_to 8000 long_paper ++ synthesis_prompt_tail])
    by (vm_compute; reflexivity).
  split; [vm_compute; reflexivity|].
  split; [vm_compute; reflexivity|].
  split; [exact Hprompts|].
  rewrite Hprompts.
  assert (Hin : In 35%N long_paper) by (apply in_or_app; right; now left).
  apply Forall_cons; [|apply Forall_cons; [|apply Forall_nil]];
    apply (lacking_char_not_contained _ _ _ Hin); vm_compute; reflexivity.
Qed.

(* ===================================================================== *)
(** * Further properties of the extractor *)
(* ===================================================================== *)

Lemma lstrip_head s : forall c r, lstrip s = c :: r -> isspace c = false.
Proof.
  induction s as [|a s IH]; intros c r H; simpl in H; [discriminate|].
  destruct (isspace a) eqn:Ha; [eauto|].
  now inversion H; subst.
Qed.

Lemma lstrip_suffix s : exists pre, s = pre ++ lstrip s.
Proof.
  induction s as [|a s [pre IH]]; [now exists []|].
  simpl. destruct (isspace a).
  - exists (a :: pre). simpl. now f_equal.
  - now exists [].
Qed.

(** Whatever [strip] returns starts and ends with a non-whitespace
    character. *)
Lemma strip_result_trimmed s : trimmed (strip s).
Proof.
  unfold strip, rstrip. split; intros c r H.
  - destruct (lstrip_suffix (rev (lstrip s))) as [pre Hpre].
    assert (Hy : lstrip (rev (lstrip s)) = rev r ++ [c]).
    { rewrite <- (rev_involutive (lstrip (rev (lstrip s)))), H. reflexivity. }
    rewrite Hy in Hpre.
    assert (Hl : lstrip s = c :: rev (pre ++ rev r)).
    { rewrite <- (rev_involutive (lstrip s)), Hpre, app_assoc, rev_app_distr.
      reflexivity. }
    exact (lstrip_head s c _ Hl).
  - assert (Hy : lstrip (rev (lstrip s)) = c :: rev r).
    { rewrite <- (rev_involutive (lstrip (rev (lstrip s)))), H, rev_app_distr.
      reflexivity. }
    exact (lstrip_head _ c _ Hy).
Qed.

Lemma lstrip_split s : exists pre, s = pre ++ lstrip s /\ blank pre.
Proof.
  induction s as [|a s (pre & IH & Hpre)]; [exists []; split; [reflexivity | constructor]|].
  simpl. destruct (isspace a) eqn:Ha.
  - exists (a :: pre). split; [simpl; now f_equal | now constructor].
  - exists []. split; [reflexivity | constructor].
Qed.

(** [strip] removes whitespace from the two ends and nothing else. *)
Lemma strip_spec s :
  exists pre post, s = pre ++ strip s ++ post /\ blank pre /\ blank post.
Proof.
  unfold strip, rstrip.
  destruct (lstrip_split s) as (pre & Hs & Hpre).
  destruct (lstrip_split (rev (lstrip s))) as (post & Hr & Hpost).
  exists pre, (rev post). split; [|split; [assumption|]].
  - rewrite <- rev_app_distr, <- Hr, rev_involutive. exact Hs.
  - unfold blank in *. now apply Forall_rev.
Qed.

Lemma read_pages_texts ts : forall text,
  value_of (read_pages (map PageText ts) text 0) = Ok (text ++ List.concat ts).
Proof.
  induction ts as [|t ts IH]; intros text; simpl.
  - now rewrite app_nil_r.
  - rewrite IH. now rewrite <- app_assoc.
Qed.

(** X1: when every page yields text and closing succeeds, the extractor
    returns the pages' texts concatenated in page order, with nothing put
    between two pages, and whitespace-normalized; the words of the result are
    the words of that concatenation; the log shows the page count and the
    length before cleaning. *)
Theorem extract_text_from_pdf_page_order E pdf_path n doc ts :
  fitz_open E pdf_path = Opened doc ->
  pages doc = map PageText ts ->
  close_raises doc = None ->
  extract_text_from_pdf E pdf_path n =
  (Ok (Some (join [space] (split (List.concat ts)))),
   [Log INFO (OpeningPDF pdf_path);
    Log INFO (ExtractingPages (Z.of_nat (List.length ts)));
    Log INFO (ExtractedChars (len (List.concat ts)))],
   n) /\
  split (join [space] (split (List.concat ts))) = split (List.concat ts).
Proof.
  intros Hopen Hpages Hclose. split.
  - pose proof (extract_text_from_pdf_run E pdf_path n) as H.
    rewrite Hopen in H. cbv zeta in H.
    rewrite Hpages, read_pages_texts, Hclose in H. rewrite H.
    now rewrite length_map.
  - apply split_join. apply split_words.
Qed.

Lemma extract_text_from_pdf_page_order_witness :
  value_of (extract_text_from_pdf
              (scripted (Opened {| pages := map PageText [u "over"; u "flow  of"; u " text "];
                                   close_raises := None |})
                        None [] (Raises (OtherException [])))
              (u "paper.pdf") 0)
  = Ok (Some (u "overflow of text")).
Proof.
  rewrite (proj1 (extract_text_from_pdf_page_order
             (scripted (Opened {| pages := map PageText [u "over"; u "flow  of"; u " text "];
                                  close_raises := None |})
                       None [] (Raises (OtherException [])))
             (u "paper.pdf") 0
             {| pages := map PageText [u "over"; u "flow  of"; u " text "];
                close_raises := None |}
             [u "over"; u "flow  of"; u " text "]
             eq_refl eq_refl eq_refl)).
  reflexivity.
Defined.

(** X2: the extractor only logs: it never calls the API, sleeps or prints,
    for any path and any behaviour of the PDF library; it logs at ERROR level
    exactly when it returns [None], and then exactly once. *)
Theorem extract_text_from_pdf_effects E pdf_path n :
  forallb is_log (events_of (extract_text_from_pdf E pdf_path n)) = true /\
  calls_of (extract_text_from_pdf E pdf_path n) = n /\
  (value_of (extract_text_from_pdf E pdf_path n) = Ok None ->
   exists e, filter is_error (events_of (extract_text_from_pdf E pdf_path n))
             = [Log ERROR (ErrorProcessingPDF pdf_path e)]) /\
  (forall s, value_of (extract_text_from_pdf E pdf_path n) = Ok (Some s) ->
             filter is_error (events_of (extract_text_from_pdf E pdf_path n)) = []).
Proof.
  pose proof (extract_text_from_pdf_run E pdf_path n) as H.
  destruct (fitz_open E pdf_path) as [e|doc].
  - rewrite H. repeat split; [now exists e | discriminate].
  - cbv zeta in H.
    destruct (value_of (read_pages (pages doc) [] 0)) as [text|e].
    + destruct (close_raises doc) as [e|]; rewrite H.
      * repeat split; [now exists e | discriminate].
      * repeat split. discriminate.
    + rewrite H. repeat split; [now exists e | discriminate].
Qed.

Lemma extract_text_from_pdf_effects_witness :
  exists e,
    filter is_error
      (events_of (extract_text_from_pdf
                    (scripted (OpenRaises (OtherException (u "no such file"))) None []
                              (Raises (OtherException [])))
                    (u "missing.pdf") 0))
    = [Log ERROR (ErrorProcessingPDF (u "missing.pdf") e)].
Proof.
  apply (proj1 (proj2 (proj2 (extract_text_from_pdf_effects
           (scripted (OpenRaises (OtherException (u "no such file"))) None []
                     (Raises (OtherException [])))
           (u "missing.pdf") 0)))).
  reflexivity.
Defined.

(* ===================================================================== *)
(** * Invariants of the LLM client *)
(* ===================================================================== *)

Lemma attempts_app ev ev' : attempts (ev ++ ev') = attempts ev + attempts ev'.
Proof. unfold attempts. now rewrite filter_app, length_app. Qed.

Lemma sleeps_app ev ev' : sleeps (ev ++ ev') = sleeps ev + sleeps ev'.
Proof. unfold sleeps. now rewrite filter_app, length_app. Qed.

Lemma printed_app ev ev' : printed (ev ++ ev') = printed ev ++ printed ev'.
Proof. unfold printed. now rewrite flat_map_app. Qed.

Lemma client_events_print_nothing r delay ev :
  Forall (client_event r delay) ev -> printed ev = [].
Proof.
  induction 1 as [|e ev He _ IH]; [reflexivity|].
  destruct e; simpl in *; try assumption. contradiction.
Qed.

Lemma client_events_requests r delay ev :
  Forall (client_event r delay) ev ->
  forall r', In (ApiCall r') ev -> r' = r.
Proof.
  intros H r' Hin. rewrite Forall_forall in H. exact (H _ Hin).
Qed.

Section ClientInvariants.

Variable E : environment.
Variable self : Chatbot.
Variables system_prompt user_prompt : str.
Variables max_retries delay : Z.

Local Notation "'req'" := (request_of self system_prompt user_prompt).
Local Notation "'loop'" := (while_attempt E self system_prompt user_prompt max_retries delay).
Local Notation "'once'" := (attempt_once E self system_prompt user_prompt max_retries delay).

(** One pass through the loop body, for any answer of the API: one call,
    at most one sleep, and what each way of ending tells about the answer. *)
Lemma attempt_once_cases attempt n :
  exists r ev,
    once attempt n = (r, ev, S n) /\
    attempts ev = 1 /\
    Forall (client_event req delay) ev /\
    match r with
    | Ok (Return (Some s)) =>
        sleeps ev = 0 /\
        exists response c,
          chat_completions_create E n req = Returns response /\
          has_content response (Some c) /\ c <> [] /\ s = strip c
    | Ok (Return None) => sleeps ev = 0
    | Ok Retry =>
        sleeps ev = 1 /\ (0 <= delay)%Z /\
        exists e, chat_completions_create E n req = Raises e /\ retryable e = true
    | Raised e =>
        sleeps ev = 0 /\ (delay < 0)%Z /\
        e = ValueError (u "sleep length must be non-negative") /\
        exists e0, chat_completions_create E n req = Raises e0 /\ retryable e0 = true
    end.
Proof.
  unfold attempt_once, catch, bind, create, logging_info, logging_warning,
    logging_error, time_sleep, emit, ret, raise; simpl.
  change {| req_model := model self; req_system := system_prompt;
            req_user := user_prompt; req_temperature := temperature self |}
    with req.
  destruct (chat_completions_create E n req) as [response|e] eqn:Hapi.
  - destruct (choices response) as [|[[[[[|c0 c]|]]|]] rest] eqn:Hch; simpl;
      do 2 eexists; (split; [reflexivity|]); (split; [reflexivity|]);
      (split; [repeat constructor|]); try reflexivity.
    split; [reflexivity|]. exists response, (c0 :: c).
    repeat split; [now exists rest | discriminate].
  - destruct e as [m|m|m|m]; simpl;
      try (do 2 eexists; (split; [reflexivity|]); (split; [reflexivity|]);
           (split; [repeat constructor|]); reflexivity);
      destruct (Z.ltb_spec delay 0); simpl;
      do 2 eexists; (split; [reflexivity|]); (split; [reflexivity|]);
      (split; [repeat constructor|]);
      repeat split; try assumption; eexists; split; reflexivity.
Qed.

Lemma while_attempt_raised attempt n e ev n1 :
  (attempt < max_retries)%Z ->
  once attempt n = (Raised e, ev, n1) ->
  loop attempt n = (Raised e, ev, n1).
Proof.
  intros H Honce. rewrite while_attempt_step.
  apply Z.ltb_lt in H. rewrite H.
  now rewrite (bind_raised _ _ _ _ _ _ _ _ Honce).
Qed.

(** What holds of every run of the loop, whatever the API answers. *)
Lemma while_attempt_invariants k : forall attempt n,
  Z.to_nat (max_retries - attempt) = k ->
  Forall (client_event req delay) (events_of (loop attempt n)) /\
  attempts (events_of (loop attempt n)) <= k /\
  calls_of (loop attempt n) = n + attempts (events_of (loop attempt n)) /\
  sleeps (events_of (loop attempt n)) <= attempts (events_of (loop attempt n)) /\
  ((0 <= delay)%Z -> exists r, value_of (loop attempt n) = Ok r) /\
  (forall s, value_of (loop attempt n) = Ok (Some s) ->
     exists i response c,
       n <= i /\
       chat_completions_create E i req = Returns response /\
       has_content response (Some c) /\ c <> [] /\ s = strip c).
Proof.
  induction k as [|k IH]; intros attempt n Hk.
  - rewrite while_attempt_exit by lia.
    unfold value_of, events_of, calls_of, attempts, sleeps; simpl.
    split; [repeat constructor|]. split; [lia|]. split; [lia|]. split; [lia|].
    split; [intros _; now eexists | discriminate].
  - destruct (attempt_once_cases attempt n) as (r & ev & Honce & Ha & Hev & Hr).
    destruct r as [[[s|]|]|e].
    + rewrite (while_attempt_return E self system_prompt user_prompt max_retries delay
                 attempt n _ _ _ ltac:(lia) Honce).
      unfold value_of, events_of, calls_of; simpl.
      destruct Hr as (Hs & response & c & Hapi & Hc & Hne & ->).
      repeat split; try assumption; try lia; [now eexists|].
      intros s' Hs'. inversion Hs'; subst s'.
      exists n, response, c. repeat split; try assumption. lia.
    + rewrite (while_attempt_return E self system_prompt user_prompt max_retries delay
                 attempt n _ _ _ ltac:(lia) Honce).
      unfold value_of, events_of, calls_of; simpl.
      repeat split; try assumption; try lia; [now eexists | discriminate].
    + rewrite (while_attempt_retry E self system_prompt user_prompt max_retries delay
                 attempt n _ _ ltac:(lia) Honce).
      destruct (IH (attempt + 1)%Z (S n) ltac:(lia))
        as (Hev' & Ha' & Hc' & Hs' & Hok' & Hsome').
      destruct Hr as (Hs & Hdelay & _).
      unfold value_of, events_of, calls_of in *; simpl.
      rewrite attempts_app, sleeps_app.
      repeat split; try lia.
      * now apply Forall_app.
      * assumption.
      * intros s Hval. destruct (Hsome' s Hval) as (i & response & c & Hi & Hrest).
        exists i, response, c. split; [lia | assumption].
    + rewrite (while_attempt_raised attempt n _ _ _ ltac:(lia) Honce).
      unfold value_of, events_of, calls_of; simpl.
      destruct Hr as (Hs & Hdelay & _).
      split; [assumption|]. split; [lia|]. split; [lia|]. split; [lia|].
      split; [intros Hd; lia | discriminate].
Qed.

End ClientInvariants.



(** X4: a text returned by the client is never raw: it is the stripped body
    of a completion the API returned with a non-empty body, so it has no
    leading and no trailing whitespace. *)
Theorem call_llm_result_is_stripped E self system_prompt user_prompt
    max_retries delay n s :
  value_of (_call_llm E self system_prompt user_prompt max_retries delay n)
  = Ok (Some s) ->
  trimmed s /\ strip s = s /\
  exists i response c,
    n <= i /\
    chat_completions_create E i (request_of self system_prompt user_prompt)
    = Returns response /\
    has_content response (Some c) /\ c <> [] /\ s = strip c.
Proof.
  unfold _call_llm. intros Hs.
  destruct (while_attempt_invariants E self system_prompt user_prompt max_retries delay
              (Z.to_nat max_retries) 0%Z n ltac:(f_equal; lia))
    as (_ & _ & _ & _ & _ & Hsome).
  destruct (Hsome s Hs) as (i & response & c & Hi & Hapi & Hc & Hne & ->).
  split; [apply strip_result_trimmed|].
  split; [apply strip_trimmed, strip_result_trimmed|].
  exists i, response, c. repeat split; assumption.
Qed.

Lemma call_llm_result_is_stripped_witness :
  strip (u "ok") = u "ok".
Proof.
  apply (call_llm_result_is_stripped
           (scripted zero_pages None
                     [Raises (APIError (u "server error")); completion (Some (u "	ok
"))]
                     (Raises (OtherException [])))
           extractor_bot (u "role") (u "task") 3 5 0 (u "ok")).
  reflexivity.
Defined.

(** X5: with a negative delay the first retryable failure does not lead to
    a retry: [time.sleep] raises inside the handler and the [ValueError]
    escapes the client, after one attempt and without any sleep. *)
Theorem call_llm_negative_delay_escapes E self system_prompt user_prompt
    max_retries delay n e :
  (0 < max_retries)%Z ->
  (delay < 0)%Z ->
  chat_completions_create E n (request_of self system_prompt user_prompt) = Raises e ->
  retryable e = true ->
  _call_llm E self system_prompt user_prompt max_retries delay n =
  (Raised (ValueError (u "sleep length must be non-negative")),
   [Log INFO (CallingLLM 1 max_retries);
    ApiCall (request_of self system_prompt user_prompt);
    Log WARNING (retry_warning e delay 1 max_retries)],
   S n).
Proof.
  intros Hmax Hdelay Hapi Hre. unfold _call_llm.
  apply (while_attempt_raised E self system_prompt user_prompt max_retries delay
           0%Z n _ _ _ Hmax).
  apply Z.ltb_lt in Hdelay.
  unfold attempt_once, catch, bind, create, logging_info, logging_warning,
    time_sleep, emit, ret, raise; simpl.
  unfold request_of in Hapi. rewrite Hapi.
  destruct e; try discriminate; simpl; rewrite Hdelay; reflexivity.
Qed.

Lemma call_llm_negative_delay_escapes_witness :
  value_of (_call_llm
              (scripted zero_pages None [] (Raises (RateLimitError (u "rate limit"))))
              extractor_bot (u "role") (u "task") 3 (-1) 0)
  = Raised (ValueError (u "sleep length must be non-negative")).
Proof.
  rewrite (call_llm_negative_delay_escapes
             (scripted zero_pages None [] (Raises (RateLimitError (u "rate limit"))))
             extractor_bot (u "role") (u "task") 3 (-1) 0
             (RateLimitError (u "rate limit"))
             ltac:(lia) ltac:(lia) eq_refl eq_refl).
  reflexivity.
Defined.

(** What holds of every call of [execute_task]. *)
Lemma execute_task_invariants E self role_prompt task_prompt n :
  exists r ev n1,
    execute_task E self role_prompt task_prompt n = (Ok r, ev, n1) /\
    n1 = n + attempts ev /\
    1 <= attempts ev <= 3 /\
    sleeps ev <= attempts ev /\
    Forall (client_event (request_of self role_prompt task_prompt) 5) ev /\
    (forall s, r = Some s -> trimmed s).
Proof.
  destruct (execute_task_returns E self role_prompt task_prompt n)
    as (r & ev & n1 & Hrun).
  pose proof Hrun as Hrun'.
  unfold execute_task, logging_info, _call_llm in Hrun'. rewrite bind_emit in Hrun'.
  destruct (while_attempt_invariants E self role_prompt task_prompt 3 5 3 0%Z n eq_refl)
    as (Hev & Ha & Hc & Hs & _ & Hsome).
  inversion Hrun' as [[Hv Hevs Hcalls]].
  assert (Hatt : attempts
                   (events_of (while_attempt E self role_prompt task_prompt 3 5 0 n))
                 = S (attempts ev)).
  { change (attempts (events_of (while_attempt E self role_prompt task_prompt 3 5 0 n)))
      with (attempts (Log INFO (ExecutingTask (slice_to 100 role_prompt))
                        :: events_of (while_attempt E self role_prompt task_prompt 3 5 0 n))).
    rewrite Hevs. reflexivity. }
  exists r, (Log INFO (ExecutingTask (slice_to 100 role_prompt))
               :: events_of (while_attempt E self role_prompt task_prompt 3 5 0 n)), n1.
  split; [rewrite Hrun, Hevs; reflexivity|].
  change (attempts (Log INFO (ExecutingTask (slice_to 100 role_prompt))
                      :: events_of (while_attempt E self role_prompt task_prompt 3 5 0 n)))
    with (attempts (events_of (while_attempt E self role_prompt task_prompt 3 5 0 n))).
  change (sleeps (Log INFO (ExecutingTask (slice_to 100 role_prompt))
                    :: events_of (while_attempt E self role_prompt task_prompt 3 5 0 n)))
    with (sleeps (events_of (while_attempt E self role_prompt task_prompt 3 5 0 n))).
  split; [rewrite <- Hcalls; exact Hc|].
  split; [lia|]. split; [exact Hs|].
  split; [constructor; [exact I | exact Hev]|].
  intros s ->. destruct (Hsome s Hv) as (i & response & c & _ & _ & _ & _ & ->).
  apply strip_result_trimmed.
Qed.

(** X6: [execute_task] always returns: whatever the API answers it makes at
    least one and at most three attempts with the one request built from the
    bot and the two prompts, sleeps only for 5, prints nothing, and raises
    nothing; what it logs of the role is at most its first 100 characters. *)
Theorem execute_task_bounded E self role_prompt task_prompt n :
  (exists r, value_of (execute_task E self role_prompt task_prompt n) = Ok r) /\
  1 <= attempts (events_of (execute_task E self role_prompt task_prompt n)) <= 3 /\
  calls_of (execute_task E self role_prompt task_prompt n)
  = n + attempts (events_of (execute_task E self role_prompt task_prompt n)) /\
  Forall (client_event (request_of self role_prompt task_prompt) 5)
    (events_of (execute_task E self role_prompt task_prompt n)) /\
  printed (events_of (execute_task E self role_prompt task_prompt n)) = [] /\
  (exists rest,
     events_of (execute_task E self role_prompt task_prompt n)
     = Log INFO (ExecutingTask (slice_to 100 role_prompt)) :: rest) /\
  List.length (slice_to 100 role_prompt) <= 100.
Proof.
  destruct (execute_task_invariants E self role_prompt task_prompt n)
    as (r & ev & n1 & Hrun & Hn1 & Ha & Hs & Hev & _).
  destruct (execute_task_returns E self role_prompt task_prompt n)
    as (r' & ev' & n1' & Hrun').
  rewrite Hrun. unfold value_of, events_of, calls_of; cbn [fst snd].
  split; [now exists r|]. split; [lia|]. split; [assumption|].
  split; [assumption|].
  split; [exact (client_events_print_nothing _ _ _ Hev)|].
  split.
  - rewrite Hrun in Hrun'. inversion Hrun'. eexists. reflexivity.
  - unfold slice_to. change (100 <? 0)%Z with false. cbv iota.
    apply (firstn_le_length (Z.to_nat 100)).
Qed.

(* ===================================================================== *)
(** * Further properties of the orchestrator *)
(* ===================================================================== *)

Lemma log_events_silent ev :
  forallb is_log ev = true ->
  printed ev = [] /\ attempts ev = 0 /\ sleeps ev = 0 /\
  forall r, ~ In (ApiCall r) ev.
Proof.
  induction ev as [|e ev IH]; intros H; [repeat split; intros r []|].
  simpl in H. apply andb_true_iff in H as [He H].
  destruct (IH H) as (Hp & Ha & Hs & Hin).
  destruct e; try discriminate.
  repeat split; try assumption.
  intros r [Hr|Hr]; [discriminate | exact (Hin r Hr)].
Qed.

Lemma extract_text_from_pdf_logs E pdf_path n :
  forallb is_log (events_of (extract_text_from_pdf E pdf_path n)) = true.
Proof.
  pose proof (extract_text_from_pdf_run E pdf_path n) as H.
  destruct (fitz_open E pdf_path) as [e|doc]; [now rewrite H|].
  cbv zeta in H.
  destruct (value_of (read_pages (pages doc) [] 0)) as [text|e];
    [destruct (close_raises doc)|]; now rewrite H.
Qed.

Lemma length_events_logs paper_text : forallb is_log (length_events paper_text) = true.
Proof.
  unfold length_events.
  destruct (len paper_text >? MAX_TEXT_LENGTH_WARN)%Z;
    [|destruct (len paper_text <? 500)%Z]; reflexivity.
Qed.

Lemma before_extractor_logs pdf_path ev0 paper_text :
  forallb is_log ev0 = true ->
  forallb is_log (before_extractor pdf_path ev0 paper_text) = true.
Proof.
  intros H. unfold before_extractor.
  rewrite !forallb_app, H, length_events_logs. reflexivity.
Qed.

Opaque extraction_task synthesis_task extractor_role synthesizer_role LLM_MODEL
  execute_task extractor_output_header final_digest_failed final_digest_header.

(** Text is extracted but the API key is missing or empty: the first
    constructor raises, the run logs it and stops. *)
Lemma pipeline_stops_without_key E pdf_path n text ev0 :
  extract_text_from_pdf E pdf_path n = (Ok (Some text), ev0, n) ->
  text <> [] ->
  truthy (OPENAI_API_KEY E) = false ->
  run_digestion_pipeline E pdf_path n =
  (Ok tt,
   [Log INFO (StartingDigestion pdf_path); Log INFO Step1ExtractingText] ++ ev0 ++
   length_events text ++ [Log ERROR (FailedToInitialize key_not_set)],
   n).
Proof.
  intros Hextract Hne Hkey.
  unfold run_digestion_pipeline, logging_info, logging_warning, logging_error, print,
    Chatbot_init, catch.
  rewrite !bind_emit. rewrite (bind_ok _ _ _ _ _ _ _ _ Hextract).
  destruct text as [|c text]; [contradiction|].
  cbn [truthy negb the]. cbv zeta. rewrite bind_emit.
  rewrite Hkey. cbn [negb].
  unfold length_events, key_not_set.
  set (paper_text := c :: text) in *.
  destruct (len paper_text >? MAX_TEXT_LENGTH_WARN)%Z;
    [|destruct (len paper_text <? 500)%Z];
    unfold bind, emit, ret, raise; simpl;
    unfold value_of, events_of, calls_of; simpl;
    rewrite <- ?app_assoc; reflexivity.
Qed.

Transparent extraction_task synthesis_task extractor_role synthesizer_role LLM_MODEL
  execute_task extractor_output_header final_digest_failed final_digest_header.

(** The four ways a run can end. *)
Lemma pipeline_cases E pdf_path n :
  exists r ev0,
    extract_text_from_pdf E pdf_path n = (Ok r, ev0, n) /\
    forallb is_log ev0 = true /\
    ((truthy r = false /\
      run_digestion_pipeline E pdf_path n =
      (Ok tt,
       [Log INFO (StartingDigestion pdf_path); Log INFO Step1ExtractingText] ++ ev0 ++
       [Log ERROR FailedToExtractText], n))
     \/
     (truthy r = true /\ truthy (OPENAI_API_KEY E) = false /\
      run_digestion_pipeline E pdf_path n =
      (Ok tt,
       [Log INFO (StartingDigestion pdf_path); Log INFO Step1ExtractingText] ++ ev0 ++
       length_events (the r) ++ [Log ERROR (FailedToInitialize key_not_set)], n))
     \/
     (truthy r = true /\ truthy (OPENAI_API_KEY E) = true /\
      exists r1 ev1 n1,
        execute_task E extractor_bot extractor_role (extraction_task (the r)) n
        = (Ok r1, ev1, n1) /\
        n1 = n + attempts ev1 /\ 1 <= attempts ev1 <= 3 /\
        Forall (client_event
                  (request_of extractor_bot extractor_role (extraction_task (the r))) 5)
               ev1 /\
        ((truthy r1 = false /\
          run_digestion_pipeline E pdf_path n =
          (Ok tt,
           before_extractor pdf_path ev0 (the r) ++ ev1 ++ [Log ERROR ExtractorBotFailed],
           n1))
         \/
         (exists extraction r2 ev2 n2,
            r1 = Some extraction /\ extraction <> [] /\ trimmed extraction /\
            execute_task E synthesizer_bot synthesizer_role
                         (synthesis_task extraction (the r)) n1 = (Ok r2, ev2, n2) /\
            n2 = n1 + attempts ev2 /\ 1 <= attempts ev2 <= 3 /\
            Forall (client_event
                      (request_of synthesizer_bot synthesizer_role
                                  (synthesis_task extraction (the r))) 5)
                   ev2 /\
            (forall s, r2 = Some s -> trimmed s) /\
            run_digestion_pipeline E pdf_path n =
            (Ok tt,
             before_extractor pdf_path ev0 (the r) ++ ev1 ++
             [Printed extractor_output_header; Printed extraction;
              Log INFO Step3SynthesizerBot] ++ ev2 ++
             (if truthy r2
              then [Printed final_digest_header; Printed (the r2);
                    Log INFO PipelineCompleted]
              else [Log ERROR SynthesizerBotFailed; Printed final_digest_failed]),
             n2))))).
Proof.
  destruct (extract_text_from_pdf_cases E pdf_path n) as (r & ev0 & Hextract & _ & _).
  exists r, ev0. split; [exact Hextract|].
  split.
  { pose proof (extract_text_from_pdf_logs E pdf_path n) as H.
    now rewrite Hextract in H. }
  destruct (truthy r) eqn:Hr.
  - right. destruct r as [[|c text]|]; try discriminate. cbn [the].
    destruct (truthy (OPENAI_API_KEY E)) eqn:Hkey.
    + right. split; [reflexivity|]. split; [reflexivity|].
      destruct (execute_task_invariants E extractor_bot extractor_role
                  (extraction_task (c :: text)) n)
        as (r1 & ev1 & n1 & Hs1 & Hn1 & Ha1 & _ & Hev1 & Htrim1).
      exists r1, ev1, n1. split; [exact Hs1|]. split; [exact Hn1|].
      split; [exact Ha1|]. split; [exact Hev1|].
      destruct (pipeline_stages E pdf_path n (c :: text) ev0 r1 ev1 n1 Hextract
                  ltac:(discriminate) Hkey Hs1) as [Hfail Hnext].
      destruct (truthy r1) eqn:Hr1.
      * right. destruct r1 as [[|c1 extraction]|]; try discriminate.
        destruct (execute_task_invariants E synthesizer_bot synthesizer_role
                    (synthesis_task (c1 :: extraction) (c :: text)) n1)
          as (r2 & ev2 & n2 & Hs2 & Hn2 & Ha2 & _ & Hev2 & Htrim2).
        exists (c1 :: extraction), r2, ev2, n2.
        split; [reflexivity|]. split; [discriminate|].
        split; [now apply Htrim1|]. split; [exact Hs2|]. split; [exact Hn2|].
        split; [exact Ha2|]. split; [exact Hev2|]. split; [exact Htrim2|].
        exact (Hnext eq_refl r2 ev2 n2 Hs2).
      * left. split; [reflexivity | exact (Hfail eq_refl)].
    + left. split; [reflexivity|]. split; [reflexivity|].
      exact (pipeline_stops_without_key E pdf_path n (c :: text) ev0 Hextract
               ltac:(discriminate) Hkey).
  - left. split; [reflexivity|].
    exact (pipeline_aborts_without_text E pdf_path n r ev0 Hextract Hr).
Qed.

(** X7: when the extractor yields no text ([None] or the empty string), the
    run ends before any chatbot is built: no call to the API, no sleep,
    nothing printed, and the error is logged last. *)
Theorem pipeline_without_text_calls_nothing E pdf_path n r :
  value_of (extract_text_from_pdf E pdf_path n) = Ok r ->
  truthy r = false ->
  value_of (run_digestion_pipeline E pdf_path n) = Ok tt /\
  calls_of (run_digestion_pipeline E pdf_path n) = n /\
  attempts (events_of (run_digestion_pipeline E pdf_path n)) = 0 /\
  sleeps (events_of (run_digestion_pipeline E pdf_path n)) = 0 /\
  printed (events_of (run_digestion_pipeline E pdf_path n)) = [] /\
  exists ev, events_of (run_digestion_pipeline E pdf_path n)
             = ev ++ [Log ERROR FailedToExtractText].
Proof.
  intros Hv Hr.
  destruct (extract_text_from_pdf_cases E pdf_path n) as (r' & ev0 & Hextract & _ & _).
  rewrite Hextract in Hv. inversion Hv; subst r'.
  pose proof (extract_text_from_pdf_logs E pdf_path n) as Hlogs.
  rewrite Hextract in Hlogs. unfold events_of in Hlogs; cbn [fst snd] in Hlogs.
  destruct (log_events_silent _ Hlogs) as (Hp & Ha & Hs & _).
  rewrite (pipeline_aborts_without_text E pdf_path n r ev0 Hextract Hr).
  unfold value_of, events_of, calls_of; cbn [fst snd].
  rewrite !attempts_app, !sleeps_app, !printed_app, Hp, Ha, Hs.
  repeat split. eexists. rewrite app_assoc. reflexivity.
Qed.

Lemma pipeline_without_text_calls_nothing_witness :
  calls_of (run_digestion_pipeline
              (scripted zero_pages demo_key [] (completion (Some (u "ok"))))
              (u "empty.pdf") 0) = 0.
Proof.
  apply (pipeline_without_text_calls_nothing
           (scripted zero_pages demo_key [] (completion (Some (u "ok"))))
           (u "empty.pdf") 0 (Some [])).
  - reflexivity.
  - reflexivity.
Defined.

(** X8: with text extracted but the API key missing or empty, the run logs
    the length of the text, then the [ValueError] of the first constructor,
    and stops: no call to the API, nothing printed. *)
Theorem pipeline_without_key_calls_nothing E pdf_path n text :
  value_of (extract_text_from_pdf E pdf_path n) = Ok (Some text) ->
  text <> [] ->
  OPENAI_API_KEY E = None \/ OPENAI_API_KEY E = Some [] ->
  value_of (run_digestion_pipeline E pdf_path n) = Ok tt /\
  calls_of (run_digestion_pipeline E pdf_path n) = n /\
  attempts (events_of (run_digestion_pipeline E pdf_path n)) = 0 /\
  printed (events_of (run_digestion_pipeline E pdf_path n)) = [] /\
  exists ev, events_of (run_digestion_pipeline E pdf_path n)
             = ev ++ [Log INFO (TextExtracted (len text))] ++
               (if (len text >? MAX_TEXT_LENGTH_WARN)%Z
                then [Log WARNING (ExtractedTextLong (len text))]
                else if (len text <? 500)%Z
                     then [Log WARNING (ExtractedTextVeryShort (len text))]
                     else []) ++
               [Log ERROR (FailedToInitialize key_not_set)].
Proof.
  intros Hv Hne Hkey.
  assert (Hk : truthy (OPENAI_API_KEY E) = false) by (destruct Hkey as [-> | ->]; reflexivity).
  destruct (extract_text_from_pdf_cases E pdf_path n) as (r' & ev0 & Hextract & _ & _).
  rewrite Hextract in Hv. inversion Hv; subst r'.
  pose proof (extract_text_from_pdf_logs E pdf_path n) as Hlogs.
  rewrite Hextract in Hlogs. unfold events_of in Hlogs; cbn [fst snd] in Hlogs.
  destruct (log_events_silent _ Hlogs) as (Hp & Ha & Hs & _).
  destruct (log_events_silent _ (length_events_logs text)) as (Hp' & Ha' & Hs' & _).
  rewrite (pipeline_stops_without_key E pdf_path n text ev0 Hextract Hne Hk).
  unfold value_of, events_of, calls_of; cbn [fst snd].
  rewrite !attempts_app, !printed_app, Hp, Ha, Hp', Ha'.
  repeat split.
  exists ([Log INFO (StartingDigestion pdf_path); Log INFO Step1ExtractingText] ++ ev0).
  unfold length_events. rewrite <- !app_assoc. reflexivity.
Qed.

Lemma pipeline_without_key_calls_nothing_witness :
  calls_of (run_digestion_pipeline
              (scripted three_pages (Some []) [] (completion (Some (u "ok"))))
              (u "paper.pdf") 0) = 0.
Proof.
  apply (pipeline_without_key_calls_nothing
           (scripted three_pages (Some []) [] (completion (Some (u "ok"))))
           (u "paper.pdf") 0 (u "Problem X. Method Y. Result Z.")).
  - reflexivity.
  - discriminate.
  - now right.
Defined.

Lemma before_extractor_silent pdf_path ev0 paper_text :
  forallb is_log ev0 = true ->
  printed (before_extractor pdf_path ev0 paper_text) = [] /\
  attempts (before_extractor pdf_path ev0 paper_text) = 0 /\
  forall r, ~ In (ApiCall r) (before_extractor pdf_path ev0 paper_text).
Proof.
  intros H.
  destruct (log_events_silent _ (before_extractor_logs pdf_path ev0 paper_text H))
    as (Hp & Ha & _ & Hin).
  repeat split; assumption.
Qed.


(** X10: what a run prints has one of three shapes: nothing; the header and
    the output of the extraction stage, then the FAILED line; or the header
    and the output of the extraction stage, then the header and the digest.
    The final digest is never printed without the extraction output before
    it, and a printed stage output is never empty and never starts or ends
    with whitespace. *)
Theorem pipeline_prints E pdf_path n :
  printed (events_of (run_digestion_pipeline E pdf_path n)) = [] \/
  (exists extraction,
     extraction <> [] /\ trimmed extraction /\
     printed (events_of (run_digestion_pipeline E pdf_path n))
     = [extractor_output_header; extraction; final_digest_failed]) \/
  (exists extraction digest,
     extraction <> [] /\ trimmed extraction /\ digest <> [] /\ trimmed digest /\
     printed (events_of (run_digestion_pipeline E pdf_path n))
     = [extractor_output_header; extraction; final_digest_header; digest]).
Proof.
  destruct (pipeline_cases E pdf_path n) as (r & ev0 & Hextract & Hlogs & Hcases).
  destruct (log_events_silent _ Hlogs) as (Hp0 & _ & _ & _).
  destruct (log_events_silent _ (length_events_logs (the r))) as (Hpl & _ & _ & _).
  destruct (before_extractor_silent pdf_path ev0 (the r) Hlogs) as (Hpb & _ & _).
  destruct Hcases as [[_ Hrun]|[(_ & _ & Hrun)|(_ & _ & r1 & ev1 & n1 & _ & _ & _ & Hev1 & Hstage)]].
  - left. rewrite Hrun. unfold events_of; cbn [fst snd].
    now rewrite !printed_app, Hp0.
  - left. rewrite Hrun. unfold events_of; cbn [fst snd].
    now rewrite !printed_app, Hp0, Hpl.
  - pose proof (client_events_print_nothing _ _ _ Hev1) as Hp1.
    destruct Hstage as [[_ Hrun]|(e & r2 & ev2 & n2 & _ & Hne & Htrim & _ & _ & _ & Hev2 & Htrim2 & Hrun)].
    + left. rewrite Hrun. unfold events_of; cbn [fst snd].
      now rewrite !printed_app, Hpb, Hp1.
    + pose proof (client_events_print_nothing _ _ _ Hev2) as Hp2.
      right. rewrite Hrun. unfold events_of; cbn [fst snd].
      rewrite !printed_app, Hpb, Hp1, Hp2.
      destruct r2 as [[|c d]|]; cbn [truthy the].
      * left. exists e. split; [assumption|]. split; [assumption | reflexivity].
      * right. exists e, (c :: d).
        split; [assumption|]. split; [assumption|]. split; [discriminate|].
        split; [now apply Htrim2 | reflexivity].
      * left. exists e. split; [assumption|]. split; [assumption | reflexivity].
Qed.

(** X11: every call a run makes to the API is made for the model
    [gpt-3.5-turbo] and carries one of two requests: the extraction request
    built from the extracted text (role of the extractor, temperature 0.3),
    or the synthesis request built from that text and an extraction output
    that the run has printed (role of the synthesizer, temperature 0.6). *)
Theorem pipeline_requests E pdf_path n text r :
  value_of (extract_text_from_pdf E pdf_path n) = Ok (Some text) ->
  In (ApiCall r) (events_of (run_digestion_pipeline E pdf_path n)) ->
  req_model r = LLM_MODEL /\
  (r = request_of extractor_bot extractor_role (extraction_task text) \/
   exists extraction,
     In (Printed extraction) (events_of (run_digestion_pipeline E pdf_path n)) /\
     r = request_of synthesizer_bot synthesizer_role (synthesis_task extraction text)).
Proof.
  intros Hv Hin.
  destruct (pipeline_cases E pdf_path n) as (r0 & ev0 & Hextract & Hlogs & Hcases).
  rewrite Hextract in Hv. inversion Hv; subst r0. cbn [the] in Hcases.
  destruct (log_events_silent _ Hlogs) as (_ & _ & _ & Hin0).
  destruct (log_events_silent _ (length_events_logs text)) as (_ & _ & _ & Hinl).
  destruct (before_extractor_silent pdf_path ev0 text Hlogs) as (_ & _ & Hinb).
  destruct Hcases as [[_ Hrun]|[(_ & _ & Hrun)|(_ & _ & r1 & ev1 & n1 & _ & _ & _ & Hev1 & Hstage)]].
  - exfalso. rewrite Hrun in Hin. unfold events_of in Hin; cbn [fst snd] in Hin.
    rewrite !in_app_iff in Hin.
    destruct Hin as [[H|[H|[]]]|[H|[H|[]]]]; try discriminate. exact (Hin0 r H).
  - exfalso. rewrite Hrun in Hin. unfold events_of in Hin; cbn [fst snd] in Hin.
    rewrite !in_app_iff in Hin.
    destruct Hin as [[H|[H|[]]]|[H|[H|[H|[]]]]]; try discriminate.
    + exact (Hin0 r H).
    + exact (Hinl r H).
  - destruct Hstage as [[_ Hrun]|(e & r2 & ev2 & n2 & _ & _ & _ & _ & _ & _ & Hev2 & _ & Hrun)].
    + rewrite Hrun in Hin. unfold events_of in Hin; cbn [fst snd] in Hin.
      rewrite !in_app_iff in Hin. destruct Hin as [H|[H|[H|[]]]]; try discriminate.
      * exfalso. exact (Hinb r H).
      * rewrite (client_events_requests _ _ _ Hev1 r H). split; [reflexivity | now left].
    + rewrite Hrun. rewrite Hrun in Hin. unfold events_of in *; cbn [fst snd] in *.
      rewrite !in_app_iff in Hin.
      destruct Hin as [H|[H|[[H|[H|[H|[]]]]|[H|H]]]]; try discriminate.
      * exfalso. exact (Hinb r H).
      * rewrite (client_events_requests _ _ _ Hev1 r H). split; [reflexivity | now left].
      * rewrite (client_events_requests _ _ _ Hev2 r H). split; [reflexivity|].
        right. exists e. split; [|reflexivity].
        rewrite !in_app_iff. right. right. left. right. now left.
      * exfalso. destruct (truthy r2); simpl in H;
          repeat (destruct H as [H|H]; try discriminate); exact H.
Qed.

Lemma pipeline_requests_witness :
  req_model (request_of extractor_bot extractor_role
               (extraction_task (u "Problem X. Method Y. Result Z."))) = LLM_MODEL.
Proof.
  apply (pipeline_requests failing_synthesis (u "paper.pdf") 0
           (u "Problem X. Method Y. Result Z.")
           (request_of extractor_bot extractor_role
              (extraction_task (u "Problem X. Method Y. Result Z.")))).
  - reflexivity.
  - vm_compute. repeat (first [left; reflexivity | right]).
Defined.

Lemma execute_task_content E self role_prompt task_prompt n response c :
  chat_completions_create E n (request_of self role_prompt task_prompt) = Returns response ->
  has_content response (Some c) ->
  c <> [] ->
  execute_task E self role_prompt task_prompt n =
  (Ok (Some (strip c)),
   [Log INFO (ExecutingTask (slice_to 100 role_prompt));
    Log INFO (CallingLLM 1 3);
    ApiCall (request_of self role_prompt task_prompt);
    Log INFO LLMCallSuccessful],
   S n).
Proof.
  intros Hapi Hc Hne.
  unfold execute_task, logging_info, _call_llm. rewrite bind_emit.
  rewrite (while_attempt_return E self role_prompt task_prompt 3 5 0%Z n _ _ _
             ltac:(lia)
             (attempt_once_content E self role_prompt task_prompt 3 5 0%Z n response c
                Hapi Hc Hne)).
  reflexivity.
Qed.

(** X12: the full run.  With text extracted and the key set, when the API
    answers the extraction request and then the synthesis request (built
    from the stripped first answer) with bodies that are not blank, the run
    makes exactly two calls, never sleeps, prints the header and the stripped
    first answer, then the header and the stripped second answer, and logs
    the completion last. *)
Theorem pipeline_succeeds E pdf_path n text response1 c1 response2 c2 :
  value_of (extract_text_from_pdf E pdf_path n) = Ok (Some text) ->
  text <> [] ->
  truthy (OPENAI_API_KEY E) = true ->
  chat_completions_create E n
    (request_of extractor_bot extractor_role (extraction_task text)) = Returns response1 ->
  has_content response1 (Some c1) ->
  strip c1 <> [] ->
  chat_completions_create E (S n)
    (request_of synthesizer_bot synthesizer_role (synthesis_task (strip c1) text))
  = Returns response2 ->
  has_content response2 (Some c2) ->
  strip c2 <> [] ->
  value_of (run_digestion_pipeline E pdf_path n) = Ok tt /\
  calls_of (run_digestion_pipeline E pdf_path n) = n + 2 /\
  attempts (events_of (run_digestion_pipeline E pdf_path n)) = 2 /\
  sleeps (events_of (run_digestion_pipeline E pdf_path n)) = 0 /\
  printed (events_of (run_digestion_pipeline E pdf_path n))
  = [extractor_output_header; strip c1; final_digest_header; strip c2] /\
  exists ev, events_of (run_digestion_pipeline E pdf_path n)
             = ev ++ [Log INFO PipelineCompleted].
Proof.
  intros Hv Hne Hkey Hapi1 Hc1 Hs1 Hapi2 Hc2 Hs2.
  destruct (extract_text_from_pdf_cases E pdf_path n) as (r' & ev0 & Hextract & _ & _).
  rewrite Hextract in Hv. inversion Hv; subst r'.
  pose proof (extract_text_from_pdf_logs E pdf_path n) as Hlogs.
  rewrite Hextract in Hlogs. unfold events_of in Hlogs; cbn [fst snd] in Hlogs.
  destruct (log_events_silent _ (before_extractor_logs pdf_path ev0 text Hlogs))
    as (Hp & Ha & Hsl & _).
  assert (Hne1 : c1 <> []) by (intros ->; now apply Hs1).
  assert (Hne2 : c2 <> []) by (intros ->; now apply Hs2).
  pose proof (execute_task_content E extractor_bot extractor_role (extraction_task text)
                n response1 c1 Hapi1 Hc1 Hne1) as Hrun1.
  pose proof (execute_task_content E synthesizer_bot synthesizer_role
                (synthesis_task (strip c1) text) (S n) response2 c2 Hapi2 Hc2 Hne2)
    as Hrun2.
  destruct (pipeline_stages E pdf_path n text ev0 _ _ _ Hextract Hne Hkey Hrun1)
    as [_ Hnext].
  destruct (strip c1) as [|a1 s1] eqn:Hstrip1; [contradiction|].
  destruct (strip c2) as [|a2 s2] eqn:Hstrip2; [contradiction|].
  rewrite (Hnext eq_refl _ _ _ Hrun2).
  unfold value_of, events_of, calls_of; cbn [fst snd truthy the].
  rewrite !attempts_app, !sleeps_app, !printed_app, Hp, Ha, Hsl.
  split; [reflexivity|]. split; [lia|]. split; [reflexivity|].
  split; [reflexivity|]. split; [reflexivity|].
  eexists. rewrite !app_assoc.
  change [Printed final_digest_header; Printed (a2 :: s2); Log INFO PipelineCompleted]
    with ([Printed final_digest_header; Printed (a2 :: s2)]
            ++ [Log INFO PipelineCompleted]).
  rewrite app_assoc. reflexivity.
Qed.

Lemma pipeline_succeeds_witness :
  printed (events_of (run_digestion_pipeline two_answers (u "paper.pdf") 0))
  = [extractor_output_header; strip (u " facts "); final_digest_header; strip (u "digest
")].
Proof.
  apply (pipeline_succeeds two_answers (u "paper.pdf") 0
           (u "Problem X. Method Y. Result Z.")
           {| choices := [{| message := Some {| content := Some (u " facts ") |} |}] |}
           (u " facts ")
           {| choices := [{| message := Some {| content := Some (u "digest
") |} |}] |}
           (u "digest
")).
  - reflexivity.
  - discriminate.
  - reflexivity.
  - reflexivity.
  - exists []. reflexivity.
  - discriminate.
  - reflexivity.
  - exists []. reflexivity.
  - discriminate.
Defined.

(** X13: the two length checks are strict and only warn.  A text longer than
    50000 characters is logged with one warning and handed to the extraction
    stage whole (no truncation at this step); a text of 500 to 50000
    characters, bounds included, is logged without any warning. *)
Theorem long_text_only_warns E pdf_path n text :
  value_of (extract_text_from_pdf E pdf_path n) = Ok (Some text) ->
  text <> [] ->
  ((MAX_TEXT_LENGTH_WARN < len text)%Z ->
   exists rest,
     events_of (run_digestion_pipeline E pdf_path n) =
     [Log INFO (StartingDigestion pdf_path); Log INFO Step1ExtractingText] ++
     events_of (extract_text_from_pdf E pdf_path n) ++
     [Log INFO (TextExtracted (len text)); Log WARNING (ExtractedTextLong (len text))] ++
     rest /\
     (truthy (OPENAI_API_KEY E) = true ->
      In (ApiCall (request_of extractor_bot extractor_role (extraction_task text))) rest)) /\
  ((500 <= len text <= MAX_TEXT_LENGTH_WARN)%Z ->
   truthy (OPENAI_API_KEY E) = true ->
   exists rest,
     events_of (run_digestion_pipeline E pdf_path n) =
     [Log INFO (StartingDigestion pdf_path); Log INFO Step1ExtractingText] ++
     events_of (extract_text_from_pdf E pdf_path n) ++
     [Log INFO (TextExtracted (len text));
      Log INFO (ChatbotInitialized LLM_MODEL); Log INFO (ChatbotInitialized LLM_MODEL);
      Log INFO Step2ExtractorBot] ++ rest /\
     In (ApiCall (request_of extractor_bot extractor_role (extraction_task text))) rest).
Proof.
  intros Hv Hne.
  destruct (extract_text_from_pdf_cases E pdf_path n) as (r' & ev0 & Hextract & _ & _).
  rewrite Hextract in Hv. inversion Hv; subst r'.
  rewrite Hextract. unfold events_of at 2 4; cbn [fst snd].
  assert (Hstage : truthy (OPENAI_API_KEY E) = true ->
            exists ev1 rest,
              In (ApiCall (request_of extractor_bot extractor_role (extraction_task text)))
                 ev1 /\
              events_of (run_digestion_pipeline E pdf_path n)
              = before_extractor pdf_path ev0 text ++ ev1 ++ rest).
  { intros Hkey.
    destruct (execute_task_returns E extractor_bot extractor_role (extraction_task text) n)
      as (r1 & ev1 & n1 & Hs1).
    destruct (pipeline_stages E pdf_path n text ev0 r1 _ n1 Hextract Hne Hkey Hs1)
      as [Hfail Hnext].
    destruct (truthy r1) eqn:Hr1.
    - destruct (execute_task_returns E synthesizer_bot synthesizer_role
                  (synthesis_task (the r1) text) n1) as (r2 & ev2 & n2 & Hs2).
      rewrite (Hnext eq_refl _ _ _ Hs2).
      do 2 eexists. split; [|reflexivity]. right. right. now left.
    - rewrite (Hfail eq_refl).
      do 2 eexists. split; [|reflexivity]. right. right. now left. }
  split.
  - intros Hlong.
    assert (Hlen : length_events text =
                   [Log INFO (TextExtracted (len text));
                    Log WARNING (ExtractedTextLong (len text))]).
    { unfold length_events. destruct (Z.gtb_spec (len text) MAX_TEXT_LENGTH_WARN);
        [reflexivity | lia]. }
    destruct (truthy (OPENAI_API_KEY E)) eqn:Hkey.
    + destruct (Hstage eq_refl) as (ev1 & rest & Hin & Hrun).
      rewrite Hrun. unfold before_extractor. rewrite Hlen.
      eexists. split; [rewrite <- !app_assoc; reflexivity|].
      intros _. rewrite !in_app_iff. right. left. exact Hin.
    + rewrite (pipeline_stops_without_key E pdf_path n text ev0 Hextract Hne Hkey).
      unfold events_of; cbn [fst snd]. rewrite Hlen.
      eexists. split; [rewrite <- ?app_assoc; reflexivity | discriminate].
  - intros [Hlo Hhi] Hkey.
    assert (Hlen : length_events text = [Log INFO (TextExtracted (len text))]).
    { unfold length_events. destruct (Z.gtb_spec (len text) MAX_TEXT_LENGTH_WARN);
        [lia|]. destruct (Z.ltb_spec (len text) 500); [lia | reflexivity]. }
    destruct (Hstage Hkey) as (ev1 & rest & Hin & Hrun).
    rewrite Hrun. unfold before_extractor. rewrite Hlen.
    eexists. split; [rewrite <- !app_assoc; reflexivity|].
    rewrite !in_app_iff. left. exact Hin.
Qed.

Lemma long_text_only_warns_witness :
  exists rest,
    events_of (run_digestion_pipeline
                 (scripted (Opened {| pages := [PageText paper_of_500];
                                      close_raises := None |})
                           demo_key [] (Raises (OtherException [])))
                 (u "paper.pdf") 0) =
    [Log INFO (StartingDigestion (u "paper.pdf")); Log INFO Step1ExtractingText] ++
    events_of (extract_text_from_pdf
                 (scripted (Opened {| pages := [PageText paper_of_500];
                                      close_raises := None |})
                           demo_key [] (Raises (OtherException [])))
                 (u "paper.pdf") 0) ++
    [Log INFO (TextExtracted 500);
     Log INFO (ChatbotInitialized LLM_MODEL); Log INFO (ChatbotInitialized LLM_MODEL);
     Log INFO Step2ExtractorBot] ++ rest /\
    In (ApiCall (request_of extractor_bot extractor_role (extraction_task paper_of_500)))
       rest.
Proof.
  apply (proj2 (long_text_only_warns
           (scripted (Opened {| pages := [PageText paper_of_500];
                                close_raises := None |})
                     demo_key [] (Raises (OtherException [])))
           (u "paper.pdf") 0 paper_of_500
           ltac:(vm_compute; reflexivity) ltac:(discriminate))).
  - vm_compute. split; discriminate.
  - reflexivity.
Defined.

(* ===================================================================== *)
(** * Further properties of the prompts *)
(* ===================================================================== *)

Lemma replace_scan_not_contained old new s :
  contains s old = false -> replace_scan old new 0 s = s.
Proof.
  induction s as [|a s IH]; intros H; [reflexivity|].
  cbn [contains] in H. apply orb_false_iff in H as [Hstart Hrest].
  cbn [replace_scan]. rewrite Hstart. f_equal. now apply IH.
Qed.

(** Replacing a pattern that does not occur changes nothing. *)
Lemma replace_not_contained s old new :
  contains s old = false -> replace s old new = s.
Proof.
  intros H. unfold replace. destruct old as [|c old].
  - destruct s; discriminate.
  - now apply replace_scan_not_contained.
Qed.

Lemma startswith_app e b : startswith (e ++ b) e = true.
Proof.
  induction e as [|c e IH]; [now destruct b|].
  cbn [app startswith]. now rewrite N.eqb_refl, IH.
Qed.

Lemma contains_app a e b : contains (a ++ e ++ b) e = true.
Proof.
  induction a as [|c a IH]; cbn [app].
  - destruct (e ++ b) eqn:Heq.
    + cbn [contains]. rewrite <- Heq, startswith_app. reflexivity.
    + cbn [contains]. rewrite <- Heq, startswith_app. reflexivity.
  - cbn [contains]. rewrite IH. apply orb_true_r.
Qed.

Lemma slice_to_8000_length s : (len (slice_to 8000 s) <= 8000)%Z.
Proof.
  unfold slice_to, len. change (8000 <? 0)%Z with false. cbv iota.
  rewrite length_firstn. lia.
Qed.

Lemma len_app a b : len (a ++ b) = (len a + len b)%Z.
Proof. unfold len. rewrite length_app. lia. Qed.

Lemma slice_to_8000_short s : (len s <= 8000)%Z -> slice_to 8000 s = s.
Proof.
  unfold slice_to, len. change (8000 <? 0)%Z with false. cbv iota.
  intros H. apply firstn_all2. lia.
Qed.

(** X14: unless the literal placeholder occurs in the evaluated f-string
    (which takes an opening brace in the text), the prompt of the extraction
    stage is the template around the first 8000 characters of the text: at
    most 8979 characters whatever the length of the paper, and the whole
    text when the paper has at most 8000 characters. *)
Theorem extraction_task_is_bounded paper_text :
  contains (extraction_prompt paper_text) placeholder = false ->
  extraction_task paper_text =
  extraction_prompt_head ++ slice_to 8000 paper_text ++ extraction_prompt_tail /\
  (len (extraction_task paper_text) <= 8979)%Z /\
  ((len paper_text <= 8000)%Z ->
   extraction_task paper_text =
   extraction_prompt_head ++ paper_text ++ extraction_prompt_tail).
Proof.
  intros H.
  assert (Heq : extraction_task paper_text =
                extraction_prompt_head ++ slice_to 8000 paper_text ++
                extraction_prompt_tail)
    by (unfold extraction_task; now rewrite (replace_not_contained _ _ _ H)).
  split; [exact Heq|]. split.
  - rewrite Heq, !len_app.
    pose proof (slice_to_8000_length paper_text).
    replace (len extraction_prompt_head) with 640%Z by (vm_compute; reflexivity).
    replace (len extraction_prompt_tail) with 339%Z by (vm_compute; reflexivity).
    lia.
  - intros Hshort. now rewrite Heq, (slice_to_8000_short _ Hshort).
Qed.

Lemma extraction_task_is_bounded_witness :
  extraction_task (u "Problem X. Method Y. Result Z.") =
  extraction_prompt_head ++ u "Problem X. Method Y. Result Z." ++ extraction_prompt_tail.
Proof.
  apply (extraction_task_is_bounded (u "Problem X. Method Y. Result Z.")).
  - vm_compute. reflexivity.
  - vm_compute. discriminate.
Defined.

(** X15: under the same condition, the prompt of the synthesis stage holds
    the output of the extraction stage in full, whatever its length,
    followed by the first 8000 characters of the paper. *)
Theorem synthesis_task_embeds_extraction initial_extraction paper_text :
  contains (synthesis_prompt initial_extraction paper_text) placeholder = false ->
  synthesis_task initial_extraction paper_text =
  synthesis_prompt_head ++ initial_extraction ++ synthesis_prompt_middle ++
  slice_to 8000 paper_text ++ synthesis_prompt_tail /\
  contains (synthesis_task initial_extraction paper_text) initial_extraction = true /\
  (len (synthesis_task initial_extraction paper_text)
   <= 8852 + len initial_extraction)%Z.
Proof.
  intros H.
  assert (Heq : synthesis_task initial_extraction paper_text =
                synthesis_prompt_head ++ initial_extraction ++ synthesis_prompt_middle ++
                slice_to 8000 paper_text ++ synthesis_prompt_tail)
    by (unfold synthesis_task; now rewrite (replace_not_contained _ _ _ H)).
  split; [exact Heq|]. split.
  - rewrite Heq. apply contains_app.
  - rewrite Heq, !len_app.
    pose proof (slice_to_8000_length paper_text).
    replace (len synthesis_prompt_head) with 630%Z by (vm_compute; reflexivity).
    replace (len synthesis_prompt_middle) with 76%Z by (vm_compute; reflexivity).
    replace (len synthesis_prompt_tail) with 146%Z by (vm_compute; reflexivity).
    lia.
Qed.

Lemma synthesis_task_embeds_extraction_witness :
  contains (synthesis_task (u "facts") (u "Problem X. Method Y. Result Z.")) (u "facts")
  = true.
Proof.
  apply (synthesis_task_embeds_extraction (u "facts") (u "Problem X. Method Y. Result Z.")).
  vm_compute. reflexivity.
Defined.

(* ===================================================================== *)
(** * The modules run as scripts *)
(* ===================================================================== *)

(** X16: [main_digester.py] run as a script never takes its first branch
    (the configured path is not the default name): when no file exists at
    the configured path it prints the two lines about the missing file and
    does nothing else, without opening a PDF or calling the API; when the
    file exists it is the orchestrator's run on that path. *)
Theorem main_digester_main_checks_file E os_path_exists n :
  (os_path_exists (u "Recommender_Systems.pdf") = false ->
   main_digester_main E os_path_exists n =
   (Ok tt,
    [Printed (u "Error: PDF file not found at 'Recommender_Systems.pdf'.");
     Printed (u "Please check the 'PDF_PATH' variable in 'main_digester.py'.")],
    n)) /\
  (os_path_exists (u "Recommender_Systems.pdf") = true ->
   main_digester_main E os_path_exists n =
   run_digestion_pipeline E (u "Recommender_Systems.pdf") n).
Proof.
  unfold main_digester_main.
  change (str_eqb PDF_PATH (u "example_paper.pdf")) with false.
  rewrite andb_false_r.
  change PDF_PATH with (u "Recommender_Systems.pdf").
  split; intros H; rewrite H; reflexivity.
Qed.

Lemma main_digester_main_checks_file_witness :
  calls_of (main_digester_main two_answers (fun _ => false) 0) = 0.
Proof.
  rewrite (proj1 (main_digester_main_checks_file two_answers (fun _ => false) 0) eq_refl).
  reflexivity.
Defined.

(** X17: [pdf_processor.py] run as a script extracts from the configured
    file and prints either the failure line, when the extractor returns
    [None] or the empty string (a PDF without extractable text included), or
    a preview of at most the first 500 characters of the text followed by
    three dots, and then the total number of characters in decimal; it never
    calls the API. *)
Theorem pdf_processor_main_output E n :
  value_of (pdf_processor_main E n) = Ok tt /\
  calls_of (pdf_processor_main E n) = n /\
  attempts (events_of (pdf_processor_main E n)) = 0 /\
  (forall r,
     value_of (extract_text_from_pdf E (u "Recommender_Systems.pdf") n) = Ok r ->
     truthy r = false ->
     printed (events_of (pdf_processor_main E n)) = [u "Failed to extract text from PDF."]) /\
  (forall text,
     value_of (extract_text_from_pdf E (u "Recommender_Systems.pdf") n) = Ok (Some text) ->
     text <> [] ->
     printed (events_of (pdf_processor_main E n)) =
     [u "Extracted text (first 500 chars):
" ++ firstn 500 text ++ u "...";
      u "
Total characters extracted: " ++ str_of_int (len text)]).
Proof.
  destruct (extract_text_from_pdf_cases E (u "Recommender_Systems.pdf") n)
    as (r & ev0 & Hextract & _ & _).
  pose proof (extract_text_from_pdf_logs E (u "Recommender_Systems.pdf") n) as Hlogs.
  rewrite Hextract in Hlogs. unfold events_of in Hlogs; cbn [fst snd] in Hlogs.
  destruct (log_events_silent _ Hlogs) as (Hp & Ha & _ & _).
  unfold pdf_processor_main.
  change (str_eqb (u "Recommender_Systems.pdf") (u "example_paper.pdf")) with false.
  cbv iota zeta. rewrite (bind_ok _ _ _ _ _ _ _ _ Hextract), Hextract.
  unfold value_of at 2 3 4; cbn [fst snd].
  destruct r as [[|c text]|]; cbn [truthy the]; unfold print;
    rewrite ?bind_emit; unfold emit, value_of, events_of, calls_of; cbn [fst snd];
    rewrite ?attempts_app, ?printed_app, Hp, Ha;
    (split; [reflexivity|]); (split; [reflexivity|]); (split; [reflexivity|]).
  - split; [reflexivity|]. intros text Heq Hne. inversion Heq; subst. contradiction.
  - split; [intros r Heq Hr; inversion Heq; subst; discriminate|].
    intros text' Heq _. inversion Heq; subst text'. reflexivity.
  - split; [reflexivity|]. intros text Heq. discriminate.
Qed.

Lemma pdf_processor_main_output_witness :
  printed (events_of (pdf_processor_main
                        (scripted zero_pages None [] (Raises (OtherException []))) 0))
  = [u "Failed to extract text from PDF."].
Proof.
  apply (proj1 (proj2 (proj2 (proj2 (pdf_processor_main_output
           (scripted zero_pages None [] (Raises (OtherException []))) 0))))
           (Some [])).
  - reflexivity.
  - reflexivity.
Defined.

Opaque execute_task.

(** X18: [chatbot.py] run as a script.  Without an API key (missing or
    empty) it prints the message of the [ValueError] and makes no call.
    With a key, one bot (model [gpt-3.5-turbo], temperature 0.5) runs both
    tasks: unlike the orchestrator, it runs the synthesis task also when the
    extraction task failed, with the words [Extraction Failed] in the place
    of the extraction; each task prints its header and its result or its
    failure line; no exception escapes. *)
Theorem chatbot_demo_runs_both_tasks E n :
  (truthy (OPENAI_API_KEY E) = false ->
   ChatbotDemo.main E n =
   (Ok tt, [Printed (u "Error: OPENAI_API_KEY environment variable not set.")], n)) /\
  (truthy (OPENAI_API_KEY E) = true ->
   exists r1 ev1 n1 r2 ev2 n2,
     execute_task E {| model := u "gpt-3.5-turbo"; temperature := (5 # 10)%Q |}
       ChatbotDemo.extractor_role ChatbotDemo.extraction_task n = (Ok r1, ev1, n1) /\
     execute_task E {| model := u "gpt-3.5-turbo"; temperature := (5 # 10)%Q |}
       ChatbotDemo.synthesizer_role (ChatbotDemo.synthesis_task r1) n1 = (Ok r2, ev2, n2) /\
     1 <= attempts ev1 /\ 1 <= attempts ev2 /\
     (truthy r1 = false ->
      contains (ChatbotDemo.synthesis_task r1) (u "Extraction Failed") = true) /\
     ChatbotDemo.main E n =
     (Ok tt,
      [Log INFO (ChatbotInitialized (u "gpt-3.5-turbo"))] ++ ev1 ++
      [Printed (u "
--- Extraction Bot Test ---");
       Printed (if truthy r1 then the r1 else u "Extraction task failed.")] ++ ev2 ++
      [Printed (u "
--- Synthesizer Bot Test ---");
       Printed (if truthy r2 then the r2 else u "Synthesis task failed.")],
      n2)).
Proof.
  split.
  - intros Hkey. unfold ChatbotDemo.main, catch, bind, Chatbot_init, raise.
    rewrite Hkey. reflexivity.
  - intros Hkey.
    destruct (execute_task_invariants E
                {| model := u "gpt-3.5-turbo"; temperature := (5 # 10)%Q |}
                ChatbotDemo.extractor_role ChatbotDemo.extraction_task n)
      as (r1 & ev1 & n1 & Hs1 & _ & Ha1 & _).
    destruct (execute_task_invariants E
                {| model := u "gpt-3.5-turbo"; temperature := (5 # 10)%Q |}
                ChatbotDemo.synthesizer_role (ChatbotDemo.synthesis_task r1) n1)
      as (r2 & ev2 & n2 & Hs2 & _ & Ha2 & _).
    exists r1, ev1, n1, r2, ev2, n2.
    split; [exact Hs1|]. split; [exact Hs2|]. split; [lia|]. split; [lia|].
    split.
    + intros Hr1. unfold ChatbotDemo.synthesis_task. rewrite Hr1.
      rewrite (app_assoc ChatbotDemo.synthesis_task_head),
        (app_assoc (ChatbotDemo.synthesis_task_head ++ ChatbotDemo.sample_text)).
      apply contains_app.
    + assert (Hinit : Chatbot_init E (u "gpt-3.5-turbo") (5 # 10)%Q n =
                      (Ok {| model := u "gpt-3.5-turbo"; temperature := (5 # 10)%Q |},
                       [Log INFO (ChatbotInitialized (u "gpt-3.5-turbo"))], n)).
      { unfold Chatbot_init, logging_info. rewrite Hkey. cbn [negb].
        rewrite bind_emit. reflexivity. }
      unfold ChatbotDemo.main, catch, print.
      rewrite (bind_ok _ _ _ _ _ _ _ _ Hinit), (bind_ok _ _ _ _ _ _ _ _ Hs1), bind_emit.
      destruct (truthy r1); rewrite bind_emit, (bind_ok _ _ _ _ _ _ _ _ Hs2), bind_emit;
        destruct (truthy r2);
        unfold emit, value_of, events_of, calls_of; cbn [fst snd];
        rewrite <- ?app_assoc; reflexivity.
Qed.

Transparent execute_task.

Lemma chatbot_demo_runs_both_tasks_witness :
  printed (events_of (ChatbotDemo.main
                        (scripted zero_pages None [] (completion (Some (u "ok")))) 0))
  = [u "Error: OPENAI_API_KEY environment variable not set."].
Proof.
  rewrite (proj1 (chatbot_demo_runs_both_tasks
                    (scripted zero_pages None [] (completion (Some (u "ok")))) 0)
             eq_refl).
  reflexivity.
Defined.

(* ===================================================================== *)
(** * The orchestrator and the client together *)
(* ===================================================================== *)

(** C2 (as stated, refuted): with a short text, the key set and an API
    whose first call fails for good, the run makes the extraction-stage call
    and no other: the synthesis stage is not run. *)
Lemma short_text_failed_extraction_runs_one_stage :
  value_of (extract_text_from_pdf failing_extraction (u "paper.pdf") 0)
  = Ok (Some (u "Problem X. Method Y. Result Z.")) /\
  len (u "Problem X. Method Y. Result Z.") = 30%Z /\
  filter is_api_call (events_of (run_digestion_pipeline failing_extraction (u "paper.pdf") 0))
  = [ApiCall (request_of extractor_bot extractor_role
                (extraction_task (u "Problem X. Method Y. Result Z.")))] /\
  attempts (events_of (run_digestion_pipeline failing_extraction (u "paper.pdf") 0)) <> 2.
Proof.
  split; [reflexivity|]. split; [reflexivity|].
  split; [vm_compute; reflexivity|]. vm_compute. discriminate.
Qed.

(** C2 (amended): the run aborts at the extraction step exactly when the
    extractor yields no text.  A text that is present but shorter than 500
    characters only adds one warning, after which the run goes on as for any
    text: without an API key it stops before any call; with the key the
    extraction-stage call is made with the prompt built from that text; the
    synthesis-stage call is made when the extraction stage yields output,
    and the run stops after the extraction stage when it yields none. *)
Theorem short_text_only_warns E pdf_path n r ev0 :
  extract_text_from_pdf E pdf_path n = (Ok r, ev0, n) ->
  (run_digestion_pipeline E pdf_path n =
   (Ok tt,
    [Log INFO (StartingDigestion pdf_path); Log INFO Step1ExtractingText] ++ ev0 ++
    [Log ERROR FailedToExtractText],
    n)
   <-> truthy r = false) /\
  (truthy r = true ->
   (len (the r) < 500)%Z ->
   (exists rest,
      events_of (run_digestion_pipeline E pdf_path n) =
      [Log INFO (StartingDigestion pdf_path); Log INFO Step1ExtractingText] ++ ev0 ++
      [Log INFO (TextExtracted (len (the r)));
       Log WARNING (ExtractedTextVeryShort (len (the r)))] ++ rest) /\
   (truthy (OPENAI_API_KEY E) = false ->
    run_digestion_pipeline E pdf_path n =
    (Ok tt,
     [Log INFO (StartingDigestion pdf_path); Log INFO Step1ExtractingText] ++ ev0 ++
     [Log INFO (TextExtracted (len (the r)));
      Log WARNING (ExtractedTextVeryShort (len (the r)));
      Log ERROR (FailedToInitialize key_not_set)],
     n)) /\
   (truthy (OPENAI_API_KEY E) = true ->
    exists r1 ev1 n1,
      execute_task E extractor_bot extractor_role (extraction_task (the r)) n =
      (Ok r1, ev1, n1) /\
      In (ApiCall (request_of extractor_bot extractor_role (extraction_task (the r)))) ev1 /\
      (truthy r1 = false ->
       run_digestion_pipeline E pdf_path n =
       (Ok tt,
        before_extractor pdf_path ev0 (the r) ++ ev1 ++ [Log ERROR ExtractorBotFailed],
        n1)) /\
      (truthy r1 = true ->
       exists r2 ev2 n2 rest,
         execute_task E synthesizer_bot synthesizer_role
                      (synthesis_task (the r1) (the r)) n1 = (Ok r2, ev2, n2) /\
         In (ApiCall (request_of synthesizer_bot synthesizer_role
                                 (synthesis_task (the r1) (the r)))) ev2 /\
         events_of (run_digestion_pipeline E pdf_path n) =
         before_extractor pdf_path ev0 (the r) ++ ev1 ++
         [Printed extractor_output_header; Printed (the r1);
          Log INFO Step3SynthesizerBot] ++ ev2 ++ rest))).
Proof.
  intros Hextract. split; [split|].
  - intros Hrun. destruct (truthy r) eqn:Hr; [exfalso | reflexivity].
    destruct (pipeline_continues_with_text E pdf_path n r ev0 Hextract Hr) as [rest Hev].
    rewrite Hrun in Hev. unfold events_of in Hev; cbn [fst snd] in Hev.
    apply app_inv_head in Hev. apply app_inv_head in Hev. discriminate.
  - intros Hr. exact (pipeline_aborts_without_text E pdf_path n r ev0 Hextract Hr).
  - intros Hr Hshort.
    assert (Hlen : length_events (the r) =
                   [Log INFO (TextExtracted (len (the r)));
                    Log WARNING (ExtractedTextVeryShort (len (the r)))]).
    { unfold length_events, MAX_TEXT_LENGTH_WARN.
      destruct (Z.gtb_spec (len (the r)) 50000); [lia|].
      destruct (Z.ltb_spec (len (the r)) 500); [reflexivity | lia]. }
    split; [|split].
    + destruct (pipeline_continues_with_text E pdf_path n r ev0 Hextract Hr) as [rest Hev].
      rewrite Hlen in Hev. now exists rest.
    + intros Hkey. destruct r as [[|c text]|]; try discriminate. cbn [the] in *.
      rewrite (pipeline_stops_without_key E pdf_path n (c :: text) ev0 Hextract
                 ltac:(discriminate) Hkey), Hlen.
      reflexivity.
    + intros Hkey.
      destruct r as [[|c text]|]; try discriminate. cbn [the] in *.
      destruct (execute_task_returns E extractor_bot extractor_role
                  (extraction_task (c :: text)) n) as (r1 & ev1 & n1 & Hs1).
      destruct (pipeline_stages E pdf_path n (c :: text) ev0 r1 _ n1 Hextract
                  ltac:(discriminate) Hkey Hs1) as [Hfail Hnext].
      do 3 eexists. split; [exact Hs1|]. split; [right; right; now left|].
      split; [exact Hfail|].
      intros Hr1.
      destruct (execute_task_returns E synthesizer_bot synthesizer_role
                  (synthesis_task (the r1) (c :: text)) n1) as (r2 & ev2 & n2 & Hs2).
      do 4 eexists. split; [exact Hs2|]. split; [right; right; now left|].
      rewrite (Hnext Hr1 _ _ _ Hs2). reflexivity.
Qed.

Lemma short_text_only_warns_witness :
  exists r1 ev1 n1,
    execute_task failing_synthesis extractor_bot extractor_role
      (extraction_task (u "Problem X. Method Y. Result Z.")) 0 = (Ok r1, ev1, n1) /\
    In (ApiCall (request_of extractor_bot extractor_role
                   (extraction_task (u "Problem X. Method Y. Result Z.")))) ev1 /\
    (truthy r1 = false ->
     run_digestion_pipeline failing_synthesis (u "paper.pdf") 0 =
     (Ok tt,
      before_extractor (u "paper.pdf")
        (events_of (extract_text_from_pdf failing_synthesis (u "paper.pdf") 0))
        (u "Problem X. Method Y. Result Z.") ++ ev1 ++ [Log ERROR ExtractorBotFailed],
      n1)) /\
    (truthy r1 = true ->
     exists r2 ev2 n2 rest,
       execute_task failing_synthesis synthesizer_bot synthesizer_role
         (synthesis_task (the r1) (u "Problem X. Method Y. Result Z.")) n1
       = (Ok r2, ev2, n2) /\
       In (ApiCall (request_of synthesizer_bot synthesizer_role
                      (synthesis_task (the r1) (u "Problem X. Method Y. Result Z."))))
          ev2 /\
       events_of (run_digestion_pipeline failing_synthesis (u "paper.pdf") 0) =
       before_extractor (u "paper.pdf")
         (events_of (extract_text_from_pdf failing_synthesis (u "paper.pdf") 0))
         (u "Problem X. Method Y. Result Z.") ++ ev1 ++
       [Printed extractor_output_header; Printed (the r1);
        Log INFO Step3SynthesizerBot] ++ ev2 ++ rest).
Proof.
  apply (proj2 (short_text_only_warns failing_synthesis (u "paper.pdf") 0
                  (Some (u "Problem X. Method Y. Result Z."))
                  (events_of (extract_text_from_pdf failing_synthesis (u "paper.pdf") 0))
                  ltac:(vm_compute; reflexivity))
           ltac:(reflexivity) ltac:(reflexivity)).
  reflexivity.
Defined.

(** C10 (the client): at whatever attempt the API returns a completion with
    a non-empty body, after any number of retried failures, the client
    returns that body without its leading and trailing whitespace and
    otherwise unchanged; a whitespace-only body comes back as the empty
    string, not as [None].  Every text the client returns arises this way.
    (The orchestrator:) at either stage an empty string is treated exactly as
    [None]: the stage is reported as failed and the run stops. *)
Theorem stripped_completion_and_empty_result :
  (forall E self system_prompt user_prompt max_retries delay n k response c,
      (Z.of_nat k < max_retries)%Z ->
      (0 <= delay)%Z ->
      (forall i, i < k ->
         exists e,
           chat_completions_create E (n + i) (request_of self system_prompt user_prompt)
           = Raises e /\
           retryable e = true) ->
      chat_completions_create E (n + k) (request_of self system_prompt user_prompt)
      = Returns response ->
      has_content response (Some c) ->
      c <> [] ->
      value_of (_call_llm E self system_prompt user_prompt max_retries delay n)
      = Ok (Some (strip c)) /\
      (exists pre post, c = pre ++ strip c ++ post /\ blank pre /\ blank post) /\
      trimmed (strip c) /\
      (blank c ->
       value_of (_call_llm E self system_prompt user_prompt max_retries delay n)
       = Ok (Some []) /\
       value_of (_call_llm E self system_prompt user_prompt max_retries delay n)
       <> Ok None)) /\
  (forall E self system_prompt user_prompt max_retries delay n s,
      value_of (_call_llm E self system_prompt user_prompt max_retries delay n)
      = Ok (Some s) ->
      exists i response c pre post,
        n <= i /\
        chat_completions_create E i (request_of self system_prompt user_prompt)
        = Returns response /\
        has_content response (Some c) /\ c <> [] /\
        c = pre ++ s ++ post /\ blank pre /\ blank post /\ trimmed s) /\
  (forall E pdf_path n text ev0 r1 ev1 n1,
      extract_text_from_pdf E pdf_path n = (Ok (Some text), ev0, n) ->
      text <> [] ->
      truthy (OPENAI_API_KEY E) = true ->
      execute_task E extractor_bot extractor_role (extraction_task text) n
      = (Ok r1, ev1, n1) ->
      r1 = Some [] \/ r1 = None ->
      run_digestion_pipeline E pdf_path n =
      (Ok tt,
       before_extractor pdf_path ev0 text ++ ev1 ++ [Log ERROR ExtractorBotFailed],
       n1)) /\
  (forall E pdf_path n text ev0 extraction ev1 n1 r2 ev2 n2,
      extract_text_from_pdf E pdf_path n = (Ok (Some text), ev0, n) ->
      text <> [] ->
      truthy (OPENAI_API_KEY E) = true ->
      execute_task E extractor_bot extractor_role (extraction_task text) n
      = (Ok (Some extraction), ev1, n1) ->
      extraction <> [] ->
      execute_task E synthesizer_bot synthesizer_role (synthesis_task extraction text) n1
      = (Ok r2, ev2, n2) ->
      r2 = Some [] \/ r2 = None ->
      run_digestion_pipeline E pdf_path n =
      (Ok tt,
       before_extractor pdf_path ev0 text ++ ev1 ++
       [Printed extractor_output_header; Printed extraction;
        Log INFO Step3SynthesizerBot] ++ ev2 ++
       [Log ERROR SynthesizerBotFailed; Printed final_digest_failed],
       n2)).
Proof.
  split; [|split; [|split]].
  - intros E self system_prompt user_prompt max_retries delay n k response c
      Hk Hdelay Hfail Hapi Hc Hne.
    assert (Hrun : value_of (_call_llm E self system_prompt user_prompt
                               max_retries delay n) = Ok (Some (strip c))).
    { unfold _call_llm.
      apply (while_attempt_retry_then_content E self system_prompt user_prompt
               max_retries delay k 0%Z n response c); assumption. }
    split; [exact Hrun|]. split; [apply strip_spec|].
    split; [apply strip_result_trimmed|]. intros Hblank.
    rewrite Hrun, (strip_blank _ Hblank). split; [reflexivity | discriminate].
  - intros E self system_prompt user_prompt max_retries delay n s Hs.
    unfold _call_llm in Hs.
    destruct (while_attempt_invariants E self system_prompt user_prompt max_retries
                delay (Z.to_nat max_retries) 0%Z n ltac:(f_equal; lia))
      as (_ & _ & _ & _ & _ & Hsome).
    destruct (Hsome s Hs) as (i & response & c & Hi & Hapi & Hc & Hne & ->).
    destruct (strip_spec c) as (pre & post & Heq & Hpre & Hpost).
    exists i, response, c, pre, post.
    repeat (split; [assumption|]). apply strip_result_trimmed.
  - intros E pdf_path n text ev0 r1 ev1 n1 Hextract Hne Hkey Hs1 Hr1.
    destruct (pipeline_stages E pdf_path n text ev0 _ _ _ Hextract Hne Hkey Hs1)
      as [Hfail _].
    apply Hfail. now destruct Hr1; subst.
  - intros E pdf_path n text ev0 extraction ev1 n1 r2 ev2 n2
      Hextract Hne Hkey Hs1 Hne1 Hs2 Hr2.
    destruct (pipeline_stages E pdf_path n text ev0 _ _ _ Hextract Hne Hkey Hs1)
      as [_ Hnext].
    destruct extraction as [|ch extraction]; [contradiction|].
    rewrite (Hnext eq_refl _ _ _ Hs2).
    now destruct Hr2; subst.
Qed.

Lemma stripped_completion_and_empty_result_witness :
  value_of (_call_llm padded_answer extractor_bot (u "role") (u "task") 3 5 0)
  = Ok (Some (u "two words")) /\
  value_of (_call_llm blank_extraction extractor_bot extractor_role
              (extraction_task (u "Problem X. Method Y. Result Z.")) 3 5 0)
  = Ok (Some []) /\
  filter is_api_call
    (events_of (run_digestion_pipeline blank_extraction (u "paper.pdf") 0))
  = [ApiCall (request_of extractor_bot extractor_role
                (extraction_task (u "Problem X. Method Y. Result Z.")))] /\
  filter is_print
    (events_of (run_digestion_pipeline blank_extraction (u "paper.pdf") 0)) = [].
Proof.
  destruct stripped_completion_and_empty_result as (Hclient & _ & Hstage1 & _).
  split; [|split].
  - rewrite (proj1 (Hclient padded_answer extractor_bot (u "role") (u "task") 3%Z 5%Z 0 1
               {| choices := [{| message := Some {| content := Some (u "  two words 
") |} |}] |}
               (u "  two words 
")
               ltac:(lia) ltac:(lia)
               ltac:(intros [|i] Hi; [eexists; split; reflexivity | lia])
               eq_refl
               ltac:(exists []; reflexivity)
               ltac:(discriminate))).
    reflexivity.
  - apply (Hclient blank_extraction extractor_bot extractor_role
             (extraction_task (u "Problem X. Method Y. Result Z.")) 3%Z 5%Z 0 0
             {| choices := [{| message := Some {| content := Some (u "  
 ") |} |}] |}
             (u "  
 ")).
    + lia.
    + lia.
    + intros i Hi. lia.
    + reflexivity.
    + exists []. reflexivity.
    + discriminate.
    + repeat constructor.
  - rewrite (Hstage1 blank_extraction (u "paper.pdf") 0
               (u "Problem X. Method Y. Result Z.")
               (events_of (extract_text_from_pdf blank_extraction (u "paper.pdf") 0))
               (Some [])
               (events_of (execute_task blank_extraction extractor_bot extractor_role
                             (extraction_task (u "Problem X. Method Y. Result Z.")) 0))
               1).
    + split; vm_compute; reflexivity.
    + vm_compute. reflexivity.
    + discriminate.
    + reflexivity.
    + vm_compute. reflexivity.
    + now left.
Defined.
